(** * Eztracker: heartbeat coalescing and dispatch

    A shallow embedding of [Eztracker.py], the Sublime Text plugin that turns
    editor events into heartbeats, buffers them and hands them to a
    command-line delivery tool.

    Conventions of the embedding:
    - a timestamp ([time.time()]) and a duration are integers [Z];
      [str] and [float] are decimal printing and parsing;
    - a Python [dict] with string keys is a [gmap string _]; a missing key
      read by subscript raises [KeyError];
    - the process-wide [state] object is threaded explicitly through a small
      state-and-exception monad that also collects the externally visible
      effects (dialogs, delivery-tool invocations) in order;
    - console output ([print], [log_debug]) is not part of the model;
    - what the host editor and the operating system answer during one event
      (clock readings, tool lookup, the outcome of running the tool) is given
      to the handler as an [env]. *)

From Stdlib Require Import ZArith Ascii String DecimalString DecimalZ.
From stdpp Require Import gmap strings list.

Local Open Scope string_scope.
Local Open Scope Z_scope.

(** ** Constants *)

Definition EXIT_CODE_CONFIG_PARSE_ERROR : Z := 103.
Definition EXIT_CODE_API_KEY_ERROR : Z := 104.
Definition VERSION : string := "0.0.1".
Definition PLUGIN_NAME : string := "eztracker-sublime".

(** ** Strings as Python uses them *)

Module PyStr.

(** [s.startswith(p)] *)
Definition startswith (s p : string) : bool := String.prefix p s.

(** [needle in hay] *)
Fixpoint contains (needle hay : string) : bool :=
  String.prefix needle hay ||
  match hay with
  | EmptyString => false
  | String _ rest => contains needle rest
  end.

(** [s.endswith(p)] *)
Fixpoint endswith (s p : string) : bool :=
  String.eqb s p ||
  match s with
  | EmptyString => false
  | String _ rest => endswith rest p
  end.

Definition lower_ascii (c : ascii) : ascii :=
  let n := N_of_ascii c in
  if ((65 <=? n) && (n <=? 90))%N then ascii_of_N (n + 32) else c.

(** [s.lower()] on ASCII text *)
Fixpoint lower (s : string) : string :=
  match s with
  | EmptyString => EmptyString
  | String c rest => String (lower_ascii c) (lower rest)
  end.

(** the truth value of a string: [bool(s)] *)
Definition truthy (s : string) : bool := negb (String.eqb s EmptyString).

(** [str(x)] of a number *)
Definition str (z : Z) : string := NilZero.string_of_int (Z.to_int z).

(** [float(s)]; [None] stands for [ValueError] *)
Definition float (s : string) : option Z :=
  option_map Z.of_int (NilZero.int_of_string s).

End PyStr.

(** ** JSON values and [json.dumps] *)

Module Json.

#[local] Set Warnings "-register-all".

Inductive json : Type :=
| JString (s : string)
| JNumber (z : Z)
| JBool (b : bool)
| JArray (items : list json)
| JObject (members : list (string * json)).

Definition hex_digit (n : N) : ascii :=
  if (n <? 10)%N then ascii_of_N (48 + n) else ascii_of_N (87 + n).

Definition dquote : ascii := ascii_of_N 34.
Definition backslash : ascii := ascii_of_N 92.

Definition esc (c : ascii) : string := String backslash (String c EmptyString).

(** one character of a string literal, as [ensure_ascii=True] writes it *)
Definition escape_char (c : ascii) : string :=
  let n := N_of_ascii c in
  if (n =? 34)%N then esc dquote
  else if (n =? 92)%N then esc backslash
  else if (n =? 10)%N then esc "n"
  else if (n =? 13)%N then esc "r"
  else if (n =? 9)%N then esc "t"
  else if (n =? 8)%N then esc "b"
  else if (n =? 12)%N then esc "f"
  else if ((32 <=? n) && (n <=? 126))%N then String c EmptyString
  else esc "u" +:+ "00" +:+
       String (hex_digit (n / 16)) (String (hex_digit (n mod 16)) EmptyString).

Fixpoint escape (s : string) : string :=
  match s with
  | EmptyString => EmptyString
  | String c rest => escape_char c +:+ escape rest
  end.

Definition quote (s : string) : string :=
  String dquote (escape s +:+ String dquote EmptyString).

Fixpoint join (sep : string) (parts : list string) : string :=
  match parts with
  | [] => EmptyString
  | [p] => p
  | p :: rest => p +:+ sep +:+ join sep rest
  end.

(** [json.dumps(v)] with the default separators *)
Fixpoint dumps (v : json) : string :=
  match v with
  | JString s => quote s
  | JNumber z => PyStr.str z
  | JBool true => "true"
  | JBool false => "false"
  | JArray items => "[" +:+ join ", " (map dumps items) +:+ "]"
  | JObject members =>
      "{" +:+
      join ", " (map (fun kv => quote (fst kv) +:+ ": " +:+ dumps (snd kv)) members)
      +:+ "}"
  end.

End Json.

(** ** Data model *)

(** One entry of [EztrackerConfig.ignore_patterns].  Every pattern of the
    source is a literal followed by [$]; [re.search] finds it when the file
    name ends with the literal, or with the literal and one final newline. *)
Inductive pattern : Type :=
| literal_at_end (lit : string).

Definition re_search (p : pattern) (file : string) : bool :=
  match p with
  | literal_at_end lit =>
      PyStr.endswith file lit ||
      PyStr.endswith file (lit +:+ String (ascii_of_N 10) EmptyString)
  end.

Record EztrackerConfig : Type := mkConfig {
  api_key : string;
  server_url : string;
  debug : bool;
  heartbeat_frequency : Z;   (* minutes *)
  cli_path : string;
  send_buffer_seconds : Z;
  ignore_patterns : list pattern
}.

(** [EztrackerConfig.__init__] *)
Definition new_config : EztrackerConfig := {|
  api_key := EmptyString;
  server_url := "http://localhost:8080";
  debug := true;
  heartbeat_frequency := 2;
  cli_path := "eztracker_cli";
  send_buffer_seconds := 30;
  ignore_patterns := [ literal_at_end "COMMIT_EDITMSG";
                       literal_at_end "PULLREQ_EDITMSG";
                       literal_at_end "MERGE_MSG";
                       literal_at_end "TAG_EDITMSG" ]
|}.

(** The dict built in [append_heartbeat]; its five keys are fixed. *)
Record heartbeat : Type := mkHeartbeat {
  entity : string;
  time : string;
  is_write : bool;
  duration : Z;
  language : string
}.

(** The instance attributes of [EztrackerState].  [__init__] assigns the
    first five; [attr_debug] is the attribute [debug] of the instance
    dictionary, which [__init__] does not assign. *)
Record EztrackerState : Type := mkState {
  initialized : bool;
  config : EztrackerConfig;
  last_heartbeat : gmap string (gmap string Z);
  heartbeat_buffer : list heartbeat;
  last_sent : Z;
  attr_debug : option bool
}.

(** [EztrackerState.__init__], the clock reading [t0] at import time *)
Definition new_state (t0 : Z) : EztrackerState := {|
  initialized := false;
  config := new_config;
  last_heartbeat := ∅;
  heartbeat_buffer := [];
  last_sent := t0;
  attr_debug := None
|}.

Definition set_initialized (b : bool) (st : EztrackerState) : EztrackerState :=
  mkState b (config st) (last_heartbeat st) (heartbeat_buffer st)
          (last_sent st) (attr_debug st).

Definition set_heartbeat_buffer (l : list heartbeat) (st : EztrackerState)
  : EztrackerState :=
  mkState (initialized st) (config st) (last_heartbeat st) l
          (last_sent st) (attr_debug st).

Definition set_last_sent (t : Z) (st : EztrackerState) : EztrackerState :=
  mkState (initialized st) (config st) (last_heartbeat st) (heartbeat_buffer st)
          t (attr_debug st).

(** The default record of [get_last_heartbeat], keys as the source spells
    them. *)
Definition default_record : gmap string Z :=
  <["last_activity_at:" := 0]> (<["last_heartbeat_at" := 0]> ∅).

(** [EztrackerState.get_last_heartbeat] *)
Definition get_last_heartbeat (st : EztrackerState) (file : string)
  : gmap string Z :=
  default default_record (last_heartbeat st !! file).

(** [EztrackerState.set_last_heartbeat] *)
Definition set_last_heartbeat (file : string) (last_activity_at last_heartbeat_at : Z)
    (st : EztrackerState) : EztrackerState :=
  mkState (initialized st) (config st)
          (<[file := <["last_activity_at" := last_activity_at]>
                       (<["last_heartbeat_at" := last_heartbeat_at]> ∅)]>
             (last_heartbeat st))
          (heartbeat_buffer st) (last_sent st) (attr_debug st).

(** [file in state.last_heartbeat] *)
Definition file_in (st : EztrackerState) (file : string) : bool :=
  bool_decide (is_Some (last_heartbeat st !! file)).

(** A view of the editor: what [view.file_name()] and
    [get_file_language(view)] answer for it.  The language lookup is editor
    glue and is taken as given. *)
Record view : Type := mkView {
  file_name : option string;
  file_language : string
}.

(** ** The environment of one event *)

(** What [subprocess.run] does. *)
Inductive run_result : Type :=
| Completed (returncode : Z) (stdout stderr : string)
| FileNotFoundError
| OtherException (description : string).

Record env : Type := mkEnv {
  time_time : Z;          (* [time.time()] at the start of the handler *)
  time_later : Z;         (* [time.time()] inside [send_heartbeats] *)
  cli_resolvable : bool;  (* [os.path.isfile(p) or shutil.which(p)] *)
  subprocess_run : run_result
}.

(** ** Effects and exceptions *)

Inductive effect : Type :=
| message_dialog (msg : string)
| run_cli (cmd : list string)
| buffer_append (hb : heartbeat).   (* marks [state.heartbeat_buffer.append] *)

Inductive exn : Type :=
| AttributeError (attr : string)
| KeyError (key : string)
| ValueError.

Inductive result (A : Type) : Type :=
| Ok (a : A) (st : EztrackerState) (out : list effect)
| Raise (e : exn) (st : EztrackerState) (out : list effect).
Arguments Ok {A} a st out.
Arguments Raise {A} e st out.

Definition M (A : Type) : Type := EztrackerState -> list effect -> result A.

Definition ret {A} (a : A) : M A := fun st out => Ok a st out.

Definition bind {A B} (m : M A) (k : A -> M B) : M B :=
  fun st out =>
    match m st out with
    | Ok a st' out' => k a st' out'
    | Raise e st' out' => Raise e st' out'
    end.

Definition raise {A} (e : exn) : M A := fun st out => Raise e st out.
Definition get : M EztrackerState := fun st out => Ok st st out.
Definition modify (f : EztrackerState -> EztrackerState) : M unit :=
  fun st out => Ok tt (f st) out.
Definition emit (e : effect) : M unit := fun st out => Ok tt st (out ++ [e])%list.

Notation "x <- m ;; k" := (bind m (fun x => k))
  (at level 100, m at next level, right associativity).
Notation "m ;; k" := (bind m (fun _ => k))
  (at level 100, right associativity).

(** [d[key]] on a dict *)
Definition subscript (d : gmap string Z) (key : string) : M Z :=
  match d !! key with
  | Some v => ret v
  | None => raise (KeyError key)
  end.

(** [state.debug]: an attribute read on the state object *)
Definition state_debug : M bool :=
  st <- get ;;
  match attr_debug st with
  | Some b => ret b
  | None => raise (AttributeError "debug")
  end.

(** ** The operations of the plugin *)

(** [is_ignored_file] *)
Definition is_ignored_file (cfg : EztrackerConfig) (file : string) : bool :=
  if negb (PyStr.truthy file) then true
  else if existsb (fun p => re_search p file) (ignore_patterns cfg) then true
  else PyStr.startswith file "term:"
       || PyStr.contains "MiniBufExplorer" file
       || String.eqb file "--NO NAME--".

(** the truth value of a list: [bool(l)] *)
Definition list_truthy {A} (l : list A) : bool :=
  match l with
  | [] => false
  | _ :: _ => true
  end.

(** [not file] for what [view.file_name()] returns *)
Definition no_file (v : view) : bool :=
  match file_name v with
  | None => true
  | Some f => negb (PyStr.truthy f)
  end.

Definition the_file (v : view) : string := default EmptyString (file_name v).

(** The flag word in front of a language on the command line. *)
Definition language_flag (lang : string) : string :=
  if String.eqb (PyStr.lower lang) "forth" then "--language"
  else "--alternate-language".

(** The key of a language in an extra heartbeat. *)
Definition language_key (lang : string) : string :=
  if String.eqb (PyStr.lower lang) "forth" then "language"
  else "alternate_language".

(** One element of the [--extra-heartbeats] array. *)
Definition extra_json (hb : heartbeat) : M Json.json :=
  match PyStr.float (time hb) with
  | None => raise ValueError
  | Some t =>
      ret (Json.JObject
             [ ("entity", Json.JString (entity hb));
               ("timestamp", Json.JNumber t);
               ("is_write", Json.JBool (is_write hb));
               ("duration", Json.JNumber (duration hb));
               (language_key (language hb), Json.JString (language hb)) ])
  end.

(** The list comprehension over [extra_heartbeats]. *)
Fixpoint extras_json (l : list heartbeat) : M (list Json.json) :=
  match l with
  | [] => ret []
  | hb :: rest =>
      j <- extra_json hb ;;
      js <- extras_json rest ;;
      ret (j :: js)
  end.

(** The argument vector [cmd] of [send_heartbeats]. *)
Definition build_cmd (cfg : EztrackerConfig) (hb : heartbeat)
    (extra_heartbeats : list heartbeat) : M (list string) :=
  let cmd := [ cli_path cfg;
               "--entity"; entity hb;
               "--time"; time hb;
               "--plugin"; "{PLUGIN_NAME}/{VERSION}" ] in
  let cmd := if negb (duration hb =? 0)
             then (cmd ++ ["--duration"; PyStr.str (duration hb)])%list else cmd in
  let cmd := if is_write hb then (cmd ++ ["--write"])%list else cmd in
  let cmd := if PyStr.truthy (language hb)
             then (cmd ++ [language_flag (language hb); language hb])%list else cmd in
  match extra_heartbeats with
  | [] => ret cmd
  | _ :: _ =>
      js <- extras_json extra_heartbeats ;;
      ret (cmd ++ ["--extra-heartbeats"; Json.dumps (Json.JArray js)])%list
  end.

(** The [try] block of [send_heartbeats]: run the tool and react to its
    exit status or to the fault of the invocation. *)
Definition run_and_classify (e : env) (cmd : list string) : M unit :=
  emit (run_cli cmd) ;;
  match subprocess_run e with
  | Completed returncode _ _ =>
      if returncode =? EXIT_CODE_API_KEY_ERROR then
        emit (message_dialog "[Eztracker] Invalid API Key. Update in ~/.eztracker.cfg") ;;
        modify (set_initialized false)
      else if returncode =? EXIT_CODE_CONFIG_PARSE_ERROR then
        emit (message_dialog "[Eztracker] CLI error (code {result.returncode}): {result.stderr}")
      else ret tt
  | FileNotFoundError =>
      emit (message_dialog "[Eztracker] CLI not found: {state.config.cli_path}")
  | OtherException _ =>
      emit (message_dialog "[Eztracker] Error running CLI: {e}")
  end.

(** [send_heartbeats] *)
Definition send_heartbeats (e : env) : M unit :=
  st <- get ;;
  match heartbeat_buffer st with
  | [] => modify (set_last_sent (time_later e))
  | hb :: extra_heartbeats =>
      if negb (cli_resolvable e) then modify (set_heartbeat_buffer [])
      else
        modify (set_heartbeat_buffer []) ;;
        if duration hb =? 0 then ret tt
        else
          cmd <- build_cmd (config st) hb extra_heartbeats ;;
          run_and_classify e cmd ;;
          modify (set_last_sent (time_later e))
  end.

(** [now - last["last_heartbeat_at"] > heartbeat_frequency * 60] *)
Definition enough_time_passed (st : EztrackerState) (file : string) (now : Z)
  : M bool :=
  lh <- subscript (get_last_heartbeat st file) "last_heartbeat_at" ;;
  ret (heartbeat_frequency (config st) * 60 <? now - lh).

(** The end of [append_heartbeat]: send the buffered heartbeats when it is
    time.  [state.last_sent] always holds a number, so the [isinstance] test
    in front of the trigger never fires. *)
Definition flush_trigger (e : env) (now : Z) : M unit :=
  st <- get ;;
  if (send_buffer_seconds (config st) <? now - last_sent st)
     && list_truthy (heartbeat_buffer st)
  then send_heartbeats e
  else ret tt.

(** [append_heartbeat] *)
Definition append_heartbeat (e : env) (v : view) (write : bool) : M unit :=
  st <- get ;;
  let file := the_file v in
  if no_file v || is_ignored_file (config st) file then ret tt
  else
    let now := time_time e in
    let last := get_last_heartbeat st file in
    enough <- enough_time_passed st file now ;;
    dbg <- state_debug ;;
    (if write || enough || negb (file_in st file) then
       dur <- (if file_in st file
               then lh <- subscript last "last_heartbeat_at" ;; ret (now - lh)
               else ret 0) ;;
       let hb := {| entity := file;
                    time := PyStr.str now;
                    is_write := write;
                    duration := dur;
                    language := file_language v |} in
       modify (fun s => set_heartbeat_buffer (heartbeat_buffer s ++ [hb])%list s) ;;
       emit (buffer_append hb) ;;
       modify (set_last_heartbeat file now now)
     else ret tt) ;;
    flush_trigger e now.

(** ** The event listener *)

Inductive editor_event : Type :=
| on_load (v : view)
| on_activated (v : view)
| on_modified (v : view)
| on_text_command (v : view) (command_name : string).

(** [EztrackerListener.on_modified] *)
Definition handle_modified (e : env) (v : view) : M unit :=
  st <- get ;;
  if initialized st then
    let file := the_file v in
    if negb (no_file v) && negb (is_ignored_file (config st) file) then
      let now := time_time e in
      let last := get_last_heartbeat st file in
      lh <- subscript last "last_heartbeat_at" ;;
      modify (set_last_heartbeat file now lh)
    else ret tt
  else ret tt.

(** The handlers of [EztrackerListener] for one event. *)
Definition handle (e : env) (ev : editor_event) : M unit :=
  match ev with
  | on_load v | on_activated v =>
      st <- get ;;
      if initialized st then append_heartbeat e v false else ret tt
  | on_modified v => handle_modified e v
  | on_text_command v command_name =>
      st <- get ;;
      if initialized st && String.eqb command_name "save"
      then append_heartbeat e v true
      else ret tt
  end.

(** The host calls one handler per event; an exception that leaves a
    handler ends that handler only, and the state keeps what the handler had
    written by then. *)
Definition deliver (st : EztrackerState) (x : env * editor_event)
  : EztrackerState * list effect :=
  match handle (fst x) (snd x) st [] with
  | Ok _ st' out => (st', out)
  | Raise _ st' out => (st', out)
  end.

Fixpoint run_events (evs : list (env * editor_event)) (st : EztrackerState)
  : EztrackerState * list effect :=
  match evs with
  | [] => (st, [])
  | x :: rest =>
      let '(st1, out1) := deliver st x in
      let '(st2, out2) := run_events rest st1 in
      (st2, (out1 ++ out2)%list)
  end.

(** The heartbeats appended to the buffer, in order. *)
Fixpoint emitted (out : list effect) : list heartbeat :=
  match out with
  | [] => []
  | buffer_append hb :: rest => hb :: emitted rest
  | _ :: rest => emitted rest
  end.

(** The command lines handed to [subprocess.run], in order. *)
Fixpoint invocations (out : list effect) : list (list string) :=
  match out with
  | [] => []
  | run_cli cmd :: rest => cmd :: invocations rest
  | _ :: rest => invocations rest
  end.

(** The texts shown to the user, in order. *)
Fixpoint notices (out : list effect) : list string :=
  match out with
  | [] => []
  | message_dialog msg :: rest => msg :: notices rest
  | _ :: rest => notices rest
  end.

(** The file an event is about. *)
Definition event_view (ev : editor_event) : view :=
  match ev with
  | on_load v | on_activated v | on_modified v | on_text_command v _ => v
  end.

(** The event is a save: the only event handled with [is_write = True]. *)
Definition is_write_event (ev : editor_event) : bool :=
  match ev with
  | on_text_command _ command_name => String.eqb command_name "save"
  | _ => false
  end.

(** ** Observations on results *)

Definition result_state {A} (r : result A) : EztrackerState :=
  match r with
  | Ok _ st _ => st
  | Raise _ st _ => st
  end.

Definition result_out {A} (r : result A) : list effect :=
  match r with
  | Ok _ _ out => out
  | Raise _ _ out => out
  end.

Definition returns {A} (r : result A) : Prop :=
  match r with
  | Ok _ _ _ => True
  | Raise _ _ _ => False
  end.

(** A session in which the plugin is initialised and the attribute
    [state.debug] has been assigned the value [b] on the state object. *)
Definition session (b : bool) (cfg : EztrackerConfig) (t0 : Z) : EztrackerState :=
  mkState true cfg ∅ [] t0 (Some b).

(** What a handler leaves alone: the configuration and the [debug]
    attribute; and, for the flush, the activity clock as well. *)
Definition same_settings (st st' : EztrackerState) : Prop :=
  config st' = config st /\ attr_debug st' = attr_debug st.

Definition same_clock (st st' : EztrackerState) : Prop :=
  same_settings st st' /\ last_heartbeat st' = last_heartbeat st.

(** The run of a computation only adds to the effects, and [delta] is what
    it adds. *)
Definition adds {A} (r : result A) (out delta : list effect) : Prop :=
  result_out r = (out ++ delta)%list.

(** ** Vocabulary of the statements *)

(** The decision of line 160, on the value [lh] read from the record. *)
Definition emits (st : EztrackerState) (f : string) (now lh : Z) (write : bool)
  : bool :=
  write || (heartbeat_frequency (config st) * 60 <? now - lh) || negb (file_in st f).

(** The heartbeat of lines 162 to 169. *)
Definition heartbeat_of (st : EztrackerState) (v : view) (f : string)
    (now lh : Z) (write : bool) : heartbeat :=
  {| entity := f;
     time := PyStr.str now;
     is_write := write;
     duration := if file_in st f then now - lh else 0;
     language := file_language v |}.

(** The state after lines 170 and 171. *)
Definition recorded (st : EztrackerState) (f : string) (now : Z) (hb : heartbeat)
  : EztrackerState :=
  set_last_heartbeat f now now
    (set_heartbeat_buffer (heartbeat_buffer st ++ [hb])%list st).

(** A heartbeat whose time was written by [str], as [append_heartbeat]
    writes it. *)
Definition stamped (hb : heartbeat) : Prop := exists z, time hb = PyStr.str z.

(** All gaps between consecutive times are at most [limit]. *)
Fixpoint gaps_within (limit : Z) (ts : list Z) : bool :=
  match ts with
  | t1 :: (t2 :: _) as rest => (t2 - t1 <=? limit) && gaps_within limit rest
  | _ => true
  end.

(** The event is about the file [f]. *)
Definition about (f : string) (ev : editor_event) : Prop :=
  file_name (event_view ev) = Some f.

(** The event is an open or an activation. *)
Definition opens (ev : editor_event) : bool :=
  match ev with
  | on_load _ | on_activated _ => true
  | _ => false
  end.

(** The file [f] had its last heartbeat at [t0], in a session with
    configuration [cfg] in which [state.debug] reads [d]. *)
Definition heartbeat_at (cfg : EztrackerConfig) (d : bool) (f : string) (t0 : Z)
    (st : EztrackerState) : Prop :=
  config st = cfg /\ attr_debug st = Some d /\
  get_last_heartbeat st f !! "last_heartbeat_at" = Some t0 /\
  file_in st f = true.

(** A later event that is no write and comes within the debounce interval
    of the heartbeat at [t0]. *)
Definition quiet (cfg : EztrackerConfig) (f : string) (t0 : Z)
    (x : env * editor_event) : Prop :=
  about f (snd x) /\ is_write_event (snd x) = false /\
  time_time (fst x) - t0 <= heartbeat_frequency cfg * 60.

(** ** More of Python's strings: what the configuration reader and the
    language lookup use *)

Module PyLine.

(** [c.isspace()] for a character below 256 *)
Definition is_space (c : ascii) : bool :=
  let n := N_of_ascii c in
  ((9 <=? n) && (n <=? 13) || (28 <=? n) && (n <=? 32)
   || (n =? 133) || (n =? 160))%N.

(** [c in chars] *)
Fixpoint mem (c : ascii) (chars : string) : bool :=
  match chars with
  | EmptyString => false
  | String x rest => Ascii.eqb c x || mem c rest
  end.

Fixpoint lstrip_by (p : ascii -> bool) (s : string) : string :=
  match s with
  | EmptyString => EmptyString
  | String c rest => if p c then lstrip_by p rest else s
  end.

Fixpoint rstrip_by (p : ascii -> bool) (s : string) : string :=
  match s with
  | EmptyString => EmptyString
  | String c rest =>
      match rstrip_by p rest with
      | EmptyString => if p c then EmptyString else String c EmptyString
      | kept => String c kept
      end
  end.

(** [s.strip()] *)
Definition strip (s : string) : string :=
  rstrip_by is_space (lstrip_by is_space s).

(** [s.strip(chars)] *)
Definition strip_chars (chars s : string) : string :=
  rstrip_by (fun c => mem c chars) (lstrip_by (fun c => mem c chars) s).

(** [s.split(sep, 1)] for a separator of one character: [None] when the
    separator does not occur (the list has one element), else the text
    before and after its first occurrence. *)
Fixpoint split_once (sep : ascii) (s : string) : option (string * string) :=
  match s with
  | EmptyString => None
  | String c rest =>
      if Ascii.eqb c sep then Some (EmptyString, rest)
      else match split_once sep rest with
           | Some (before, after) => Some (String c before, after)
           | None => None
           end
  end.

(** [s.split()]: the maximal runs of characters that are not whitespace *)
Fixpoint split (s : string) : list string :=
  match s with
  | EmptyString => []
  | String c rest =>
      if is_space c then split rest
      else match rest with
           | EmptyString => [String c EmptyString]
           | String c' _ =>
               if is_space c' then String c EmptyString :: split rest
               else match split rest with
                    | tok :: toks => String c tok :: toks
                    | [] => [String c EmptyString]
                    end
           end
  end.

(** [s[n:]] *)
Fixpoint drop (n : nat) (s : string) : string :=
  match n, s with
  | O, _ => s
  | S n', String _ rest => drop n' rest
  | S _, EmptyString => EmptyString
  end.



End PyLine.

(** ** The configuration file *)

(** What opening and reading [CONFIG_FILE] gives: its lines, or
    [FileNotFoundError], or another exception. *)
Inductive file_read : Type :=
| FileLines (lines : list string)
| FileNotFound
| FileError.

Definition set_api_key (v : string) (c : EztrackerConfig) : EztrackerConfig :=
  mkConfig v (server_url c) (debug c) (heartbeat_frequency c) (cli_path c)
           (send_buffer_seconds c) (ignore_patterns c).

Definition set_server_url (v : string) (c : EztrackerConfig) : EztrackerConfig :=
  mkConfig (api_key c) v (debug c) (heartbeat_frequency c) (cli_path c)
           (send_buffer_seconds c) (ignore_patterns c).

Definition set_debug (v : bool) (c : EztrackerConfig) : EztrackerConfig :=
  mkConfig (api_key c) (server_url c) v (heartbeat_frequency c) (cli_path c)
           (send_buffer_seconds c) (ignore_patterns c).

Definition set_heartbeat_frequency (v : Z) (c : EztrackerConfig) : EztrackerConfig :=
  mkConfig (api_key c) (server_url c) (debug c) v (cli_path c)
           (send_buffer_seconds c) (ignore_patterns c).

Definition set_config (c : EztrackerConfig) (st : EztrackerState) : EztrackerState :=
  mkState (initialized st) c (last_heartbeat st) (heartbeat_buffer st)
          (last_sent st) (attr_debug st).

(** [line.startswith(("#", ";"))] *)
Definition is_comment (line : string) : bool :=
  PyStr.startswith line "#" || PyStr.startswith line ";".

(** [line.startswith("[") and line.endswith("]")] *)
Definition is_section_header (line : string) : bool :=
  PyStr.startswith line "[" && PyStr.endswith line "]".

Section Load.

(** [float(value)] on the text of a setting, [None] for [ValueError].  The
    numbers of the configuration are integers here, so the reading of an
    arbitrary text as a number is left open. *)
Variable float_value : string -> option Z.

(** The assignment a [key = value] line of the settings section makes. *)
Definition load_setting (key value : string) (c : EztrackerConfig)
  : EztrackerConfig :=
  if String.eqb key "api_key" then set_api_key value c
  else if String.eqb key "server_url" then set_server_url value c
  else if String.eqb key "debug"
       then set_debug (String.eqb (PyStr.lower value) "true") c
  else if String.eqb key "heartbeat_frequency"
       then match float_value value with
            | Some x => set_heartbeat_frequency x c
            | None => c
            end
  else c.

(** One round of the loop of [EztrackerConfig.load], with the local
    [current_section], which is unbound ([None]) until a header is read.
    The result [None] is the [UnboundLocalError] of reading it unbound. *)
Definition load_line (line0 : string) (c : EztrackerConfig)
    (current_section : option string)
  : option (EztrackerConfig * option string) :=
  let line := PyLine.strip line0 in
  if negb (PyStr.truthy line) || is_comment line then Some (c, current_section)
  else if is_section_header line
       then Some (c, Some (PyLine.strip_chars "[]" line))
  else
    match current_section with
    | None => None
    | Some section =>
        if String.eqb section "settings" then
          match PyLine.split_once "=" line with
          | None => Some (c, current_section)
          | Some (k, v) =>
              Some (load_setting (PyLine.strip k) (PyLine.strip v) c,
                    current_section)
          end
        else Some (c, current_section)
    end.

(** The loop over the lines.  An exception ends it, and the [except] clause
    keeps what was assigned by then. *)
Fixpoint load_lines (lines : list string) (c : EztrackerConfig)
    (current_section : option string) : EztrackerConfig :=
  match lines with
  | [] => c
  | line :: rest =>
      match load_line line c current_section with
      | None => c
      | Some (c', section') => load_lines rest c' section'
      end
  end.

(** The fields after the [try] statement of [load]. *)
Definition load_fields (rd : file_read) (c : EztrackerConfig) : EztrackerConfig :=
  match rd with
  | FileLines lines => load_lines lines c None
  | FileNotFound => c
  | FileError => c
  end.

(** [EztrackerConfig.load] on [state.config] *)
Definition load (rd : file_read) : M bool :=
  st <- get ;;
  let c := load_fields rd (config st) in
  modify (set_config c) ;;
  if negb (PyStr.truthy (api_key c)) then
    emit (message_dialog
            "[Eztracker] API key not found. Set API_KEY env var or add to ~/.eztracker.cfg") ;;
    ret false
  else ret true.

(** The loop of [on_init] over the views, each with the environment of its
    call of [append_heartbeat]. *)
Fixpoint append_heartbeats (views : list (env * view)) : M unit :=
  match views with
  | [] => ret tt
  | (e, v) :: rest => append_heartbeat e v false ;; append_heartbeats rest
  end.

(** [EztrackerListener.on_init] *)
Definition on_init (rd : file_read) (views : list (env * view)) : M unit :=
  st <- get ;;
  if negb (initialized st) then
    ok <- load rd ;;
    (if ok then modify (set_initialized true) else ret tt) ;;
    append_heartbeats views
  else ret tt.

End Load.

(** ** The debug command *)



(** ** The language of a view *)

(** What the editor says about a view: [view.scope_name(0)] and
    [view.file_name()]. *)
Record sublime_view : Type := mkSublimeView {
  scope_name : string;
  sv_file_name : option string
}.

(** [extension_map.get(extension, EMPTY)], [EMPTY] the empty string *)
Definition extension_map (extension : string) : string :=
  if String.eqb extension ".py" then "python"
  else if String.eqb extension ".go" then "go"
  else if String.eqb extension ".js" then "javascript"
  else if String.eqb extension ".ts" then "typescript"
  else if String.eqb extension ".java" then "java"
  else if String.eqb extension ".cpp" then "cpp"
  else if String.eqb extension ".c" then "c"
  else if String.eqb extension ".cs" then "csharp"
  else if String.eqb extension ".rb" then "ruby"
  else if String.eqb extension ".php" then "php"
  else if String.eqb extension ".html" then "html"
  else if String.eqb extension ".css" then "css"
  else if String.eqb extension ".json" then "json"
  else if String.eqb extension ".md" then "markdown"
  else if String.eqb extension ".odin" then "odin"
  else EmptyString.

(** The first scope that starts with [source.], without that prefix. *)
Fixpoint source_scope (scopes : list string) : option string :=
  match scopes with
  | [] => None
  | s :: rest =>
      if PyStr.startswith s "source." then Some (PyLine.drop 7 s)
      else source_scope rest
  end.

Section Language.

(** [os.path.splitext(file_name)[1]], which depends on the platform. *)
Variable splitext_ext : string -> string.

(** [get_file_language] for a view the editor knows (a true [view]) *)
Definition get_file_language (sv : sublime_view) : string :=
  let scope := PyLine.strip (scope_name sv) in
  match (if PyStr.truthy scope then source_scope (PyLine.split scope) else None) with
  | Some lang => lang
  | None =>
      match sv_file_name sv with
      | Some file =>
          if PyStr.truthy file
          then extension_map (PyStr.lower (splitext_ext file))
          else EmptyString
      | None => EmptyString
      end
  end.

(** The view as [append_heartbeat] sees it. *)
Definition as_view (sv : sublime_view) : view :=
  mkView (sv_file_name sv) (get_file_language sv).

End Language.

(** ** Well-formed states *)

(** Every record of the clock has a last heartbeat time, and every buffered
    heartbeat carries a time written by [str]. *)
Definition well_formed (st : EztrackerState) : Prop :=
  Forall stamped (heartbeat_buffer st) /\
  forall (f : string) (rec : gmap string Z),
    last_heartbeat st !! f = Some rec -> is_Some (rec !! "last_heartbeat_at").

(** The file of the event is not tracked: there is none, or it is empty or
    ignored. *)
Definition untracked (cfg : EztrackerConfig) (v : view) : Prop :=
  no_file v || is_ignored_file cfg (the_file v) = true.

(** ** The reaction to the outcome of a run *)

(** The dialogs the [try] statement of [send_heartbeats] shows for an
    outcome of [subprocess.run]. *)
Definition notice_of (rr : run_result) : list string :=
  match rr with
  | Completed returncode _ _ =>
      if returncode =? EXIT_CODE_API_KEY_ERROR
      then ["[Eztracker] Invalid API Key. Update in ~/.eztracker.cfg"]
      else if returncode =? EXIT_CODE_CONFIG_PARSE_ERROR
      then ["[Eztracker] CLI error (code {result.returncode}): {result.stderr}"]
      else []
  | FileNotFoundError => ["[Eztracker] CLI not found: {state.config.cli_path}"]
  | OtherException _ => ["[Eztracker] Error running CLI: {e}"]
  end.

(** What it writes to the state. *)
Definition react (rr : run_result) (st : EztrackerState) : EztrackerState :=
  match rr with
  | Completed returncode _ _ =>
      if returncode =? EXIT_CODE_API_KEY_ERROR then set_initialized false st else st
  | _ => st
  end.

(** The outcome is an exit with the API-key-error code. *)
Definition api_key_error (rr : run_result) : bool :=
  match rr with
  | Completed returncode _ _ => returncode =? EXIT_CODE_API_KEY_ERROR
  | _ => false
  end.

(** ** Lines of a configuration file *)

(** The loop of [load] passes over the line: it is blank or a comment. *)
Definition skipped (line : string) : bool :=
  negb (PyStr.truthy (PyLine.strip line)) || is_comment (PyLine.strip line).

(** The line is neither passed over nor a section header. *)
Definition plain (line : string) : bool :=
  negb (skipped line) && negb (is_section_header (PyLine.strip line)).

(** The fields [load] never assigns. *)
Definition fixed_fields (c : EztrackerConfig) : string * Z * list pattern :=
  (cli_path c, send_buffer_seconds c, ignore_patterns c).

Section LoadScan.

Variable float_value : string -> option Z.


End LoadScan.

(** ** Words of a scope name *)

(** No character of the text is whitespace. *)
Fixpoint no_space (s : string) : bool :=
  match s with
  | EmptyString => true
  | String c rest => negb (PyLine.is_space c) && no_space rest
  end.

(** The text is empty or starts with whitespace. *)
Definition starts_blank (s : string) : bool :=
  match s with
  | EmptyString => true
  | String c _ => PyLine.is_space c
  end.

(** ** Clock readings along a run *)

(** The clock readings of the events do not go back, starting at [t]. *)
Fixpoint nondecreasing_from (t : Z) (evs : list (env * editor_event)) : bool :=
  match evs with
  | [] => true
  | x :: rest =>
      (t <=? time_time (fst x)) && nondecreasing_from (time_time (fst x)) rest
  end.

(** Every last heartbeat time on record lies between 0 and [t]. *)
Definition clock_before (t : Z) (st : EztrackerState) : Prop :=
  forall (f : string) (rec : gmap string Z) (lh : Z),
    last_heartbeat st !! f = Some rec ->
    rec !! "last_heartbeat_at" = Some lh ->
    0 <= lh <= t.

(** ** Basic facts *)

Lemma emitted_app (a b : list effect) :
  emitted (a ++ b) = (emitted a ++ emitted b)%list.
Proof.
  induction a as [| x a IH]; simpl; [reflexivity |].
  destruct x; simpl; rewrite IH; reflexivity.
Qed.

Lemma invocations_app (a b : list effect) :
  invocations (a ++ b) = (invocations a ++ invocations b)%list.
Proof.
  induction a as [| x a IH]; simpl; [reflexivity |].
  destruct x; simpl; rewrite IH; reflexivity.
Qed.

Lemma notices_app (a b : list effect) :
  notices (a ++ b) = (notices a ++ notices b)%list.
Proof.
  induction a as [| x a IH]; simpl; [reflexivity |].
  destruct x; simpl; rewrite IH; reflexivity.
Qed.

(** Building the JSON of the extra heartbeats touches neither the state nor
    the effects. *)
Lemma extras_json_pure (l : list heartbeat) (st : EztrackerState) (out : list effect) :
  (exists js, extras_json l st out = Ok js st out) \/
  extras_json l st out = Raise ValueError st out.
Proof.
  induction l as [| hb rest IH]; simpl.
  - left. eexists. reflexivity.
  - unfold bind, extra_json.
    destruct (PyStr.float (time hb)) as [t |]; simpl; [| right; reflexivity].
    destruct IH as [[js Hjs] | Hr]; rewrite ?Hjs, ?Hr; simpl.
    + left. eexists. reflexivity.
    + right. reflexivity.
Qed.

Lemma build_cmd_pure (cfg : EztrackerConfig) (hb : heartbeat)
    (extra : list heartbeat) (st : EztrackerState) (out : list effect) :
  (exists cmd, build_cmd cfg hb extra st out = Ok cmd st out) \/
  build_cmd cfg hb extra st out = Raise ValueError st out.
Proof.
  unfold build_cmd. destruct extra as [| x extra].
  - left. eexists. reflexivity.
  - unfold bind.
    destruct (extras_json_pure (x :: extra) st out) as [[js Hjs] | Hr].
    + rewrite Hjs. left. eexists. reflexivity.
    + rewrite Hr. right. reflexivity.
Qed.

(** Running the tool and classifying its outcome appends no heartbeat and
    leaves configuration and clock alone. *)
Lemma run_and_classify_frame (e : env) (cmd : list string)
    (st : EztrackerState) (out : list effect) :
  exists st' delta,
    run_and_classify e cmd st out = Ok tt st' (out ++ delta)%list /\
    same_clock st st' /\ heartbeat_buffer st' = heartbeat_buffer st /\
    last_sent st' = last_sent st /\
    emitted delta = [] /\ invocations delta = [cmd].
Proof.
  unfold run_and_classify, bind, emit, modify, ret, same_clock, same_settings.
  destruct (subprocess_run e) as [rc so se | | msg].
  - destruct (rc =? EXIT_CODE_API_KEY_ERROR);
      [| destruct (rc =? EXIT_CODE_CONFIG_PARSE_ERROR)];
      eexists _, _; rewrite <- ?app_assoc; simpl; (split; [reflexivity |]); auto.
  - eexists _, _; rewrite <- ?app_assoc; simpl; (split; [reflexivity |]); auto.
  - eexists _, _; rewrite <- ?app_assoc; simpl; (split; [reflexivity |]); auto.
Qed.

(** A flush appends no heartbeat and leaves configuration and clock alone,
    whether it returns or raises. *)
Lemma send_heartbeats_frame (e : env) (st : EztrackerState) (out : list effect) :
  exists delta,
    adds (send_heartbeats e st out) out delta /\
    same_clock st (result_state (send_heartbeats e st out)) /\
    emitted delta = [].
Proof.
  unfold send_heartbeats, adds, same_clock, same_settings, bind, get, modify, ret.
  destruct (heartbeat_buffer st) as [| hb extra] eqn:Hbuf.
  - exists []. rewrite app_nil_r. simpl. auto.
  - destruct (cli_resolvable e); simpl.
    2:{ exists []. rewrite app_nil_r. simpl. auto. }
    destruct (duration hb =? 0).
    { exists []. rewrite app_nil_r. simpl. auto. }
    destruct (build_cmd_pure (config st) hb extra (set_heartbeat_buffer [] st) out)
      as [[cmd Hcmd] | Hr].
    + rewrite Hcmd.
      destruct (run_and_classify_frame e cmd (set_heartbeat_buffer [] st) out)
        as (st' & delta & Hrun & [[Hc Ha] Hm] & _ & _ & Hem & _).
      rewrite Hrun. exists delta. simpl. auto.
    + rewrite Hr. exists []. rewrite app_nil_r. simpl. auto.
Qed.

(** ** The emission policy of [append_heartbeat] *)

Lemma not_ignored_truthy (cfg : EztrackerConfig) (f : string) :
  is_ignored_file cfg f = false -> PyStr.truthy f = true.
Proof.
  unfold is_ignored_file. destruct (PyStr.truthy f); simpl; [reflexivity | discriminate].
Qed.

Lemma flush_trigger_frame (e : env) (now : Z) (st : EztrackerState) (out : list effect) :
  exists delta,
    adds (flush_trigger e now st out) out delta /\
    same_clock st (result_state (flush_trigger e now st out)) /\
    emitted delta = [].
Proof.
  unfold flush_trigger, bind, get.
  destruct ((send_buffer_seconds (config st) <? now - last_sent st)
            && list_truthy (heartbeat_buffer st)).
  - apply send_heartbeats_frame.
  - exists []. unfold adds, same_clock, same_settings, ret. simpl.
    rewrite app_nil_r. auto.
Qed.

(** [append_heartbeat] on a file that is not ignored, when the attribute
    read of line 158 succeeds: the policy step followed by the flush
    trigger. *)
Lemma append_heartbeat_eq (e : env) (v : view) (write : bool)
    (st : EztrackerState) (out : list effect) (d : bool) (f : string) (lh : Z) :
  attr_debug st = Some d ->
  file_name v = Some f ->
  is_ignored_file (config st) f = false ->
  get_last_heartbeat st f !! "last_heartbeat_at" = Some lh ->
  let now := time_time e in
  let hb := heartbeat_of st v f now lh write in
  append_heartbeat e v write st out =
    if emits st f now lh write
    then flush_trigger e now (recorded st f now hb) (out ++ [buffer_append hb])%list
    else flush_trigger e now st out.
Proof.
  intros Hdbg Hfile Hign Hlh now hb.
  pose proof (not_ignored_truthy _ _ Hign) as Htr.
  unfold append_heartbeat, bind, get, no_file, the_file.
  rewrite Hfile. change (default EmptyString (Some f)) with f.
  rewrite Htr, Hign. cbn [negb orb].
  unfold enough_time_passed, bind, subscript. rewrite Hlh.
  unfold ret at 1 2. unfold state_debug, bind, get. rewrite Hdbg. unfold ret at 1.
  fold now. fold (emits st f now lh write).
  destruct (emits st f now lh write); [| reflexivity].
  subst hb. unfold heartbeat_of, recorded.
  destruct (file_in st f); reflexivity.
Qed.

(** ** Timestamps survive [str] and [float] *)

Lemma float_str (z : Z) : PyStr.float (PyStr.str z) = Some z.
Proof.
  unfold PyStr.float, PyStr.str.
  rewrite NilZero.isi.
  - simpl. f_equal. apply DecimalZ.of_to.
  - destruct z as [| p | p]; simpl; intros H; inversion H as [Hp].
    exact (DecimalPos.Unsigned.to_uint_nonnil p Hp).
  - destruct z as [| p | p]; simpl; intros H; inversion H as [Hp].
    exact (DecimalPos.Unsigned.to_uint_nonnil p Hp).
Qed.

Lemma extras_json_stamped (l : list heartbeat) (st : EztrackerState) (out : list effect) :
  Forall stamped l -> exists js, extras_json l st out = Ok js st out.
Proof.
  induction 1 as [| hb rest [z Hz] _ [js Hjs]]; simpl.
  - eexists. reflexivity.
  - unfold bind, extra_json. rewrite Hz, float_str. simpl. rewrite Hjs.
    eexists. reflexivity.
Qed.

Lemma build_cmd_stamped (cfg : EztrackerConfig) (hb : heartbeat)
    (extra : list heartbeat) (st : EztrackerState) (out : list effect) :
  Forall stamped extra -> exists cmd, build_cmd cfg hb extra st out = Ok cmd st out.
Proof.
  intros Hex. unfold build_cmd. destruct extra as [| x extra].
  - eexists. reflexivity.
  - unfold bind. destruct (extras_json_stamped _ st out Hex) as [js Hjs].
    rewrite Hjs. eexists. reflexivity.
Qed.

(** ** Events in a session that is not initialised *)

Lemma handle_uninitialized (e : env) (ev : editor_event) (st : EztrackerState)
    (out : list effect) :
  initialized st = false -> handle e ev st out = Ok tt st out.
Proof.
  intros Hinit. destruct ev; simpl; unfold handle_modified, bind, get;
    rewrite Hinit; reflexivity.
Qed.

Lemma run_events_uninitialized (evs : list (env * editor_event)) (st : EztrackerState) :
  initialized st = false -> run_events evs st = (st, []).
Proof.
  intros Hinit. induction evs as [| x rest IH]; simpl; [reflexivity |].
  unfold deliver. rewrite handle_uninitialized by assumption.
  rewrite IH. reflexivity.
Qed.

(** ** What the event path does once [state.debug] can be read *)

(** The heartbeats one call of [append_heartbeat] appends. *)
Lemma append_heartbeat_emitted (e : env) (v : view) (write : bool)
    (st : EztrackerState) (d : bool) (f : string) (lh : Z) :
  attr_debug st = Some d ->
  file_name v = Some f ->
  is_ignored_file (config st) f = false ->
  get_last_heartbeat st f !! "last_heartbeat_at" = Some lh ->
  emitted (result_out (append_heartbeat e v write st [])) =
    if emits st f (time_time e) lh write
    then [heartbeat_of st v f (time_time e) lh write]
    else [].
Proof.
  intros Hdbg Hfile Hign Hlh.
  rewrite (append_heartbeat_eq e v write st [] d f lh) by assumption.
  destruct (emits st f (time_time e) lh write).
  - match goal with
    | |- context [flush_trigger e ?now ?s ?o] =>
        destruct (flush_trigger_frame e now s o) as (delta & Hadd & _ & Hem)
    end.
    unfold adds in Hadd. rewrite Hadd, emitted_app, Hem. reflexivity.
  - destruct (flush_trigger_frame e (time_time e) st []) as (delta & Hadd & _ & Hem).
    unfold adds in Hadd. rewrite Hadd. exact Hem.
Qed.

(** A flush whose first heartbeat has a duration runs the tool once and
    then sets [last_sent] to the second clock reading, whatever the tool
    does. *)
Lemma send_heartbeats_after_run (e : env) (st : EztrackerState)
    (hb : heartbeat) (rest : list heartbeat) :
  heartbeat_buffer st = hb :: rest ->
  duration hb <> 0 ->
  Forall stamped rest ->
  cli_resolvable e = true ->
  exists st' delta,
    send_heartbeats e st [] = Ok tt st' delta /\
    length (invocations delta) = 1%nat /\
    last_sent st' = time_later e /\
    heartbeat_buffer st' = [].
Proof.
  intros Hbuf Hdur Hst Hres.
  destruct (build_cmd_stamped (config st) hb rest (set_heartbeat_buffer [] st) [] Hst)
    as [cmd Hcmd].
  assert (Hd : (duration hb =? 0) = false) by (apply Z.eqb_neq; exact Hdur).
  destruct (run_and_classify_frame e cmd (set_heartbeat_buffer [] st) [])
    as (st' & delta & Hrun & _ & Hb & _ & _ & Hinv).
  exists (set_last_sent (time_later e) st'), delta.
  unfold send_heartbeats, bind, get. rewrite Hbuf, Hres. cbn [negb].
  unfold modify at 1. rewrite Hd, Hcmd, Hrun. simpl.
  rewrite Hinv, Hb. auto.
Qed.

(** A flush of heartbeats written by [append_heartbeat] returns. *)
Lemma send_heartbeats_returns (e : env) (st : EztrackerState) (out : list effect) :
  Forall stamped (heartbeat_buffer st) -> returns (send_heartbeats e st out).
Proof.
  intros Hst. unfold send_heartbeats, bind, get.
  destruct (heartbeat_buffer st) as [| hb rest]; [exact I |].
  destruct (cli_resolvable e); simpl; [| exact I].
  destruct (duration hb =? 0); [exact I |].
  inversion Hst as [| ? ? _ Hrest]; subst.
  destruct (build_cmd_stamped (config st) hb rest (set_heartbeat_buffer [] st) out Hrest)
    as [cmd Hcmd].
  rewrite Hcmd.
  destruct (run_and_classify_frame e cmd (set_heartbeat_buffer [] st) out)
    as (st' & delta & Hrun & _).
  rewrite Hrun. exact I.
Qed.

(** With [state.debug] readable, [append_heartbeat] returns: the attribute
    read is the only step of the event path that raises. *)
Lemma append_heartbeat_returns (e : env) (v : view) (write : bool)
    (st : EztrackerState) (out : list effect) (d : bool) (f : string) (lh : Z) :
  attr_debug st = Some d ->
  file_name v = Some f ->
  is_ignored_file (config st) f = false ->
  get_last_heartbeat st f !! "last_heartbeat_at" = Some lh ->
  Forall stamped (heartbeat_buffer st) ->
  returns (append_heartbeat e v write st out).
Proof.
  intros Hdbg Hfile Hign Hlh Hst.
  rewrite (append_heartbeat_eq e v write st out d f lh) by assumption.
  assert (Hflush : forall s o, Forall stamped (heartbeat_buffer s) ->
                               returns (flush_trigger e (time_time e) s o)).
  { intros s o Hs. unfold flush_trigger, bind, get.
    destruct ((send_buffer_seconds (config s) <? time_time e - last_sent s)
              && list_truthy (heartbeat_buffer s)); [| exact I].
    apply send_heartbeats_returns. exact Hs. }
  destruct (emits st f (time_time e) lh write); apply Hflush; [| exact Hst].
  unfold recorded. simpl. apply Forall_app. split; [exact Hst |].
  constructor; [| constructor]. exists (time_time e). reflexivity.
Qed.

(** The language flag is [--language] exactly for the language [forth] in
    any letter case. *)
Lemma language_flag_forth (lang : string) :
  language_flag lang = "--language" <-> PyStr.lower lang = "forth".
Proof.
  unfold language_flag.
  destruct (String.eqb_spec (PyStr.lower lang) "forth") as [Heq | Hne].
  - split; auto.
  - split; [discriminate | contradiction].
Qed.

(** ** The activity clock *)

(** C10. For an entity without a record, [get_last_heartbeat] answers with a
    record whose last heartbeat time is 0 but which has no entry under
    [last_activity_at]: the zero of the last activity is stored under the
    key ["last_activity_at:"], so reading the last activity time of an unseen
    entity raises [KeyError] instead of giving 0. *)
Theorem get_last_heartbeat_unseen (t0 : Z) (file : string)
    (st : EztrackerState) (out : list effect) :
  let last := get_last_heartbeat (new_state t0) file in
  last !! "last_heartbeat_at" = Some 0 /\
  last !! "last_activity_at" = None /\
  last !! "last_activity_at:" = Some 0 /\
  subscript last "last_activity_at" st out = Raise (KeyError "last_activity_at") st out /\
  get_last_heartbeat (set_last_heartbeat file 0 0 (new_state t0)) file
    !! "last_activity_at" = Some 0.
Proof.
  assert (Hd : get_last_heartbeat (new_state t0) file = default_record).
  { unfold get_last_heartbeat, new_state. simpl. rewrite lookup_empty. reflexivity. }
  cbv zeta. rewrite Hd. unfold subscript.
  assert (Hnone : default_record !! "last_activity_at" = None) by (vm_compute; reflexivity).
  rewrite Hnone.
  repeat split; try (vm_compute; reflexivity).
  unfold get_last_heartbeat, set_last_heartbeat. simpl.
  rewrite lookup_insert_eq. simpl. apply lookup_insert_eq.
Qed.

(** C9. A modify event on a tracked file sets the last activity time of the
    file to the event time and keeps its last heartbeat time, so the
    debounce test of any later event reads the same value as before. *)
Theorem on_modified_activity_only (e : env) (v : view) (st : EztrackerState)
    (f : string) (lh : Z) :
  initialized st = true ->
  file_name v = Some f ->
  is_ignored_file (config st) f = false ->
  get_last_heartbeat st f !! "last_heartbeat_at" = Some lh ->
  exists st',
    handle e (on_modified v) st [] = Ok tt st' [] /\
    get_last_heartbeat st' f !! "last_activity_at" = Some (time_time e) /\
    get_last_heartbeat st' f !! "last_heartbeat_at"
      = get_last_heartbeat st f !! "last_heartbeat_at" /\
    (forall now s out,
        enough_time_passed st' f now s out = enough_time_passed st f now s out) /\
    heartbeat_buffer st' = heartbeat_buffer st /\
    last_sent st' = last_sent st.
Proof.
  intros Hinit Hfile Hign Hlh.
  pose proof (not_ignored_truthy _ _ Hign) as Htr.
  exists (set_last_heartbeat f (time_time e) lh st).
  assert (Hact : get_last_heartbeat (set_last_heartbeat f (time_time e) lh st) f
                 !! "last_activity_at" = Some (time_time e)).
  { unfold get_last_heartbeat, set_last_heartbeat. simpl.
    rewrite lookup_insert_eq. simpl. apply lookup_insert_eq. }
  assert (Hhb : get_last_heartbeat (set_last_heartbeat f (time_time e) lh st) f
                !! "last_heartbeat_at" = Some lh).
  { unfold get_last_heartbeat, set_last_heartbeat. simpl.
    rewrite lookup_insert_eq. simpl.
    rewrite lookup_insert_ne by discriminate. apply lookup_insert_eq. }
  split; [| split; [exact Hact | split; [congruence | split; [| split; reflexivity]]]].
  - simpl. unfold handle_modified, bind, get, no_file, the_file.
    rewrite Hinit, Hfile. change (default EmptyString (Some f)) with f.
    rewrite Htr, Hign. cbn [negb andb]. unfold subscript. rewrite Hlh. reflexivity.
  - intros now s out. unfold enough_time_passed, bind, subscript.
    rewrite Hhb, Hlh. reflexivity.
Qed.

Lemma on_modified_activity_only_witness :
  exists st',
    handle (mkEnv 1030 1031 true FileNotFoundError)
           (on_modified (mkView (Some "/src/main.go") "go"))
           (recorded (session false new_config 900) "/src/main.go" 1000
                     (mkHeartbeat "/src/main.go" "1000" false 0 "go")) []
    = Ok tt st' [] /\
    get_last_heartbeat st' "/src/main.go" !! "last_activity_at" = Some 1030 /\
    get_last_heartbeat st' "/src/main.go" !! "last_heartbeat_at" = Some 1000.
Proof.
  destruct (on_modified_activity_only
              (mkEnv 1030 1031 true FileNotFoundError)
              (mkView (Some "/src/main.go") "go")
              (recorded (session false new_config 900) "/src/main.go" 1000
                        (mkHeartbeat "/src/main.go" "1000" false 0 "go"))
              "/src/main.go" 1000)
    as (st' & Hrun & Hact & Hhb & _).
  - reflexivity.
  - reflexivity.
  - vm_compute; reflexivity.
  - vm_compute; reflexivity.
  - exists st'. split; [exact Hrun | split; [exact Hact |]].
    rewrite Hhb. vm_compute; reflexivity.
Defined.

(** ** The flush *)

(** C5. When the first buffered heartbeat has duration 0, a flush returns
    without running the delivery tool (it has no effect at all), and the
    buffer is empty afterwards: the other heartbeats of the batch are gone
    with the first. *)
Theorem zero_duration_primary_drops_batch (e : env) (st : EztrackerState)
    (hb : heartbeat) (rest : list heartbeat) :
  heartbeat_buffer st = hb :: rest ->
  duration hb = 0 ->
  exists st',
    send_heartbeats e st [] = Ok tt st' [] /\
    invocations (result_out (send_heartbeats e st [])) = [] /\
    heartbeat_buffer st' = [] /\
    same_clock st st' /\
    last_sent st' = last_sent st.
Proof.
  intros Hbuf Hdur. exists (set_heartbeat_buffer [] st).
  unfold send_heartbeats, bind, get. rewrite Hbuf, Hdur.
  destruct (cli_resolvable e); simpl; unfold same_clock, same_settings; simpl; auto 10.
Qed.

Lemma zero_duration_primary_drops_batch_witness :
  exists st',
    send_heartbeats (mkEnv 1100 1101 true (Completed 0 "ok" EmptyString))
      (mkState true new_config ∅
         [ mkHeartbeat "/src/a.py" "1000" false 0 "python";
           mkHeartbeat "/src/a.py" "1050" true 50 "python" ] 900 (Some false)) []
    = Ok tt st' [] /\ heartbeat_buffer st' = [].
Proof.
  destruct (zero_duration_primary_drops_batch
              (mkEnv 1100 1101 true (Completed 0 "ok" EmptyString))
              (mkState true new_config ∅
                 [ mkHeartbeat "/src/a.py" "1000" false 0 "python";
                   mkHeartbeat "/src/a.py" "1050" true 50 "python" ] 900 (Some false))
              (mkHeartbeat "/src/a.py" "1000" false 0 "python")
              [ mkHeartbeat "/src/a.py" "1050" true 50 "python" ])
    as (st' & Hrun & _ & Hbuf & _).
  - reflexivity.
  - reflexivity.
  - exists st'. split; assumption.
Defined.

(** C8. When the delivery tool is run and exits with the API-key-error
    code, the user is shown the invalid-key notice and the session is no
    longer initialised; from then on every sequence of open, activate, modify
    and save events leaves the state as it is and has no effect, so no
    heartbeat is produced. *)
Theorem api_key_error_stops_heartbeats (e : env) (st : EztrackerState)
    (hb : heartbeat) (rest : list heartbeat) (so se : string) :
  heartbeat_buffer st = hb :: rest ->
  duration hb <> 0 ->
  Forall stamped rest ->
  cli_resolvable e = true ->
  subprocess_run e = Completed EXIT_CODE_API_KEY_ERROR so se ->
  exists st' cmd,
    send_heartbeats e st [] =
      Ok tt st' [ run_cli cmd;
                  message_dialog "[Eztracker] Invalid API Key. Update in ~/.eztracker.cfg" ] /\
    initialized st' = false /\
    forall evs : list (env * editor_event),
      run_events evs st' = (st', []) /\ emitted (snd (run_events evs st')) = [].
Proof.
  intros Hbuf Hdur Hst Hres Hrun.
  destruct (build_cmd_stamped (config st) hb rest (set_heartbeat_buffer [] st) [] Hst)
    as [cmd Hcmd].
  exists (set_last_sent (time_later e) (set_initialized false (set_heartbeat_buffer [] st))), cmd.
  assert (Hd : (duration hb =? 0) = false) by (apply Z.eqb_neq; exact Hdur).
  split; [| split; [reflexivity |]].
  - unfold send_heartbeats, bind, get. rewrite Hbuf, Hres. cbn [negb].
    unfold modify at 1. rewrite Hd, Hcmd.
    unfold run_and_classify, bind, emit. rewrite Hrun.
    rewrite Z.eqb_refl. reflexivity.
  - intros evs. rewrite run_events_uninitialized by reflexivity. split; reflexivity.
Qed.

Lemma api_key_error_stops_heartbeats_witness :
  exists st' cmd,
    send_heartbeats (mkEnv 1100 1102 true (Completed 104 EmptyString "bad key"))
      (mkState true new_config ∅
         [ mkHeartbeat "/src/a.py" "1050" true 50 "python";
           mkHeartbeat "/src/b.py" "1060" false 0 "python" ] 900 (Some false)) []
    = Ok tt st' [ run_cli cmd;
                  message_dialog "[Eztracker] Invalid API Key. Update in ~/.eztracker.cfg" ] /\
    initialized st' = false /\
    emitted (snd (run_events
                    [ (mkEnv 1200 1201 true (Completed 0 EmptyString EmptyString),
                       on_text_command (mkView (Some "/src/a.py") "python") "save") ]
                    st')) = [].
Proof.
  destruct (api_key_error_stops_heartbeats
              (mkEnv 1100 1102 true (Completed 104 EmptyString "bad key"))
              (mkState true new_config ∅
                 [ mkHeartbeat "/src/a.py" "1050" true 50 "python";
                   mkHeartbeat "/src/b.py" "1060" false 0 "python" ] 900 (Some false))
              (mkHeartbeat "/src/a.py" "1050" true 50 "python")
              [ mkHeartbeat "/src/b.py" "1060" false 0 "python" ]
              EmptyString "bad key")
    as (st' & cmd & Hrun & Hinit & Hafter).
  - reflexivity.
  - simpl. discriminate.
  - constructor; [exists 1060; reflexivity | constructor].
  - reflexivity.
  - reflexivity.
  - exists st', cmd. split; [exact Hrun | split; [exact Hinit |]].
    apply Hafter.
Defined.

(** C7. The command line built for the batch of two heartbeats A (duration
    5) and B (duration 10): entity, time, duration, language flag and the
    extra heartbeats are as described, but the value after [--plugin] is the
    text [{PLUGIN_NAME}/{VERSION}] itself, not the plugin name and version
    joined by a slash. *)
Theorem plugin_argument_is_literal (st : EztrackerState) (out : list effect) :
  let A := mkHeartbeat "/src/a.fs" "1000" false 5 "Forth" in
  let B := mkHeartbeat "/src/b.py" "1010" true 10 "python" in
  let extra :=
    Json.dumps
      (Json.JArray
         [ Json.JObject
             [ ("entity", Json.JString "/src/b.py");
               ("timestamp", Json.JNumber 1010);
               ("is_write", Json.JBool true);
               ("duration", Json.JNumber 10);
               ("alternate_language", Json.JString "python") ] ]) in
  build_cmd new_config A [B] st out =
    Ok [ "eztracker_cli"; "--entity"; "/src/a.fs"; "--time"; "1000";
         "--plugin"; "{PLUGIN_NAME}/{VERSION}";
         "--duration"; "5"; "--language"; "Forth";
         "--extra-heartbeats"; extra ] st out /\
  "{PLUGIN_NAME}/{VERSION}" <> PLUGIN_NAME +:+ "/" +:+ VERSION /\
  PLUGIN_NAME +:+ "/" +:+ VERSION = "eztracker-sublime/0.0.1".
Proof.
  cbv zeta. split; [| split].
  - vm_compute. reflexivity.
  - vm_compute. discriminate.
  - reflexivity.
Qed.

(** ** The event path *)

(** Without the attribute [debug] on the state object, [append_heartbeat]
    raises on every file that is not ignored, before it decides anything. *)
Lemma append_heartbeat_without_attr (e : env) (v : view) (write : bool)
    (st : EztrackerState) (out : list effect) (f : string) (lh : Z) :
  attr_debug st = None ->
  file_name v = Some f ->
  is_ignored_file (config st) f = false ->
  get_last_heartbeat st f !! "last_heartbeat_at" = Some lh ->
  append_heartbeat e v write st out = Raise (AttributeError "debug") st out.
Proof.
  intros Hdbg Hfile Hign Hlh.
  pose proof (not_ignored_truthy _ _ Hign) as Htr.
  unfold append_heartbeat, bind, get, no_file, the_file.
  rewrite Hfile. change (default EmptyString (Some f)) with f.
  rewrite Htr, Hign. cbn [negb orb].
  unfold enough_time_passed, bind, subscript. rewrite Hlh.
  unfold ret at 1 2. unfold state_debug, bind, get. rewrite Hdbg. reflexivity.
Qed.

(** C1. In the session the plugin builds for itself ([EztrackerState()] and
    then [initialized = True]) an open, activate or save event on the file
    [/src/a.py], which is not empty and not ignored, does not return: the
    handler raises [AttributeError] for [state.debug]. *)
Theorem event_path_raises_attribute_error (e : env) (t0 : Z) :
  let v := mkView (Some "/src/a.py") "python" in
  let st := set_initialized true (new_state t0) in
  no_file v = false /\
  is_ignored_file (config st) "/src/a.py" = false /\
  handle e (on_load v) st [] = Raise (AttributeError "debug") st [] /\
  handle e (on_activated v) st [] = Raise (AttributeError "debug") st [] /\
  handle e (on_text_command v "save") st [] = Raise (AttributeError "debug") st [].
Proof.
  cbv zeta.
  assert (H : forall w, append_heartbeat e (mkView (Some "/src/a.py") "python") w
                          (set_initialized true (new_state t0)) []
                        = Raise (AttributeError "debug")
                                (set_initialized true (new_state t0)) []).
  { intros w. apply append_heartbeat_without_attr with (f := "/src/a.py") (lh := 0);
      vm_compute; reflexivity. }
  repeat split; try (vm_compute; reflexivity); simpl; unfold bind, get; simpl; apply H.
Qed.

(** C2. The flush trigger fires (40 seconds after the last flush, limit 30)
    with one heartbeat in the buffer while the delivery tool cannot be
    found: the buffer is emptied and [last_sent] keeps its old value 1000.
    It also keeps it when the trigger time has passed and the buffer is
    empty. *)
Theorem flush_without_tool_keeps_last_sent :
  let v := mkView (Some "/src/a.py") "python" in
  let e := mkEnv 1040 1041 false FileNotFoundError in
  let st := session false new_config 1000 in
  let hb := mkHeartbeat "/src/a.py" "1040" false 0 "python" in
  let st_idle := set_heartbeat_buffer []
                   (recorded (session false new_config 1000) "/src/a.py" 1030
                             (mkHeartbeat "/src/a.py" "1030" false 0 "python")) in
  (send_buffer_seconds (config st) <? time_time e - last_sent st) = true /\
  (exists st', handle e (on_load v) st [] = Ok tt st' [buffer_append hb] /\
               heartbeat_buffer st' = [] /\
               last_sent st' = 1000) /\
  (exists st', handle e (on_activated v) st_idle [] = Ok tt st' [] /\
               heartbeat_buffer st' = [] /\
               last_sent st' = 1000).
Proof.
  cbv zeta. split; [reflexivity |]. split.
  - eexists. split; [vm_compute; reflexivity |]. split; reflexivity.
  - eexists. split; [vm_compute; reflexivity |]. split; reflexivity.
Qed.

(** C3. A modify event and then an open event on the same new file: the
    open emits the first heartbeat ever for the file, and its duration is
    the whole clock reading 1700000010, not 0. *)
Theorem first_heartbeat_after_modify_duration :
  let v := mkView (Some "/src/a.py") "python" in
  let e1 := mkEnv 1700000000 1700000001 true (Completed 0 EmptyString EmptyString) in
  let e2 := mkEnv 1700000010 1700000011 true (Completed 0 EmptyString EmptyString) in
  let st := session false new_config 1699999990 in
  emitted (snd (run_events [(e1, on_modified v)] st)) = [] /\
  emitted (snd (run_events [(e1, on_modified v); (e2, on_load v)] st)) =
    [ mkHeartbeat "/src/a.py" "1700000010" false 1700000010 "python" ].
Proof.
  cbv zeta. split; vm_compute; reflexivity.
Qed.

(** C4. With a debounce interval longer than the clock reading, a modify
    event and then an open event on the same new file emit nothing: the
    file never had a heartbeat, the open is not a write, and no heartbeat is
    emitted for it. *)
Theorem open_after_modify_not_emitted :
  let v := mkView (Some "/src/a.py") "python" in
  let cfg := mkConfig "key" "http://localhost:8080" true 100000000
                      "eztracker_cli" 30 (ignore_patterns new_config) in
  let e1 := mkEnv 1700000000 1700000001 true (Completed 0 EmptyString EmptyString) in
  let e2 := mkEnv 1700000010 1700000011 true (Completed 0 EmptyString EmptyString) in
  let st := session false cfg 1699999990 in
  is_ignored_file cfg "/src/a.py" = false /\
  emitted (snd (run_events [(e1, on_modified v); (e2, on_load v)] st)) = [] /\
  returns (handle e2 (on_load v) (fst (run_events [(e1, on_modified v)] st)) []) /\
  emitted (snd (run_events [(e2, on_load v)] st)) =
    [ mkHeartbeat "/src/a.py" "1700000010" false 0 "python" ].
Proof.
  cbv zeta. repeat split; vm_compute; reflexivity || exact I.
Qed.

(** ** Sequences of events on one file *)

Lemma file_in_set_last_heartbeat (f : string) (a h : Z) (st : EztrackerState) :
  file_in (set_last_heartbeat f a h st) f = true.
Proof.
  unfold file_in, set_last_heartbeat. simpl. rewrite lookup_insert_eq.
  apply bool_decide_eq_true. eexists. reflexivity.
Qed.

Lemma get_set_last_heartbeat (f : string) (a h : Z) (st : EztrackerState) :
  get_last_heartbeat (set_last_heartbeat f a h st) f !! "last_heartbeat_at" = Some h.
Proof.
  unfold get_last_heartbeat, set_last_heartbeat. simpl.
  rewrite lookup_insert_eq. simpl.
  rewrite lookup_insert_ne by discriminate. apply lookup_insert_eq.
Qed.

Lemma heartbeat_at_same_clock cfg d f t0 (st st' : EztrackerState) :
  same_clock st st' -> heartbeat_at cfg d f t0 st -> heartbeat_at cfg d f t0 st'.
Proof.
  intros [[Hc Ha] Hm] (Hcfg & Hdbg & Hlh & Hin).
  unfold heartbeat_at, get_last_heartbeat, file_in in *.
  rewrite Hc, Ha, Hm. auto.
Qed.

(** A quiet event emits nothing and keeps the time of the last heartbeat. *)
Lemma deliver_quiet cfg d f t0 (st : EztrackerState) (x : env * editor_event) :
  is_ignored_file cfg f = false ->
  heartbeat_at cfg d f t0 st ->
  quiet cfg f t0 x ->
  heartbeat_at cfg d f t0 (fst (deliver st x)) /\ emitted (snd (deliver st x)) = [].
Proof.
  intros Hign Hat (Hab & Hw & Ht). destruct x as [e ev]. simpl in Hab, Hw, Ht.
  unfold deliver. cbn [fst snd].
  destruct (initialized st) eqn:Hinit.
  2:{ rewrite handle_uninitialized by assumption. simpl. auto. }
  pose proof Hat as (Hcfg & Hdbg & Hlh & Hin).
  assert (Hquiet : forall v, file_name v = Some f ->
            let r := append_heartbeat e v false st [] in
            heartbeat_at cfg d f t0 (result_state r) /\ emitted (result_out r) = []).
  { intros v Hv r. subst r.
    rewrite (append_heartbeat_eq e v false st [] d f t0) by (rewrite ?Hcfg; assumption).
    assert (Hno : emits st f (time_time e) t0 false = false).
    { unfold emits. rewrite Hin, Hcfg. simpl.
      rewrite orb_false_r. apply Z.ltb_ge. exact Ht. }
    rewrite Hno.
    destruct (flush_trigger_frame e (time_time e) st []) as (delta & Hadd & Hsame & Hem).
    split; [eapply heartbeat_at_same_clock; eassumption |].
    unfold adds in Hadd. rewrite Hadd. simpl. exact Hem. }
  destruct ev as [v | v | v | v name]; unfold about in Hab; simpl in Hab.
  - simpl. unfold bind, get. rewrite Hinit.
    destruct (Hquiet v Hab) as [H1 H2].
    destruct (append_heartbeat e v false st []); simpl in *; auto.
  - simpl. unfold bind, get. rewrite Hinit.
    destruct (Hquiet v Hab) as [H1 H2].
    destruct (append_heartbeat e v false st []); simpl in *; auto.
  - simpl. unfold handle_modified, bind, get, no_file, the_file.
    rewrite Hinit, Hab. change (default EmptyString (Some f)) with f.
    rewrite Hcfg, (not_ignored_truthy _ _ Hign), Hign. cbn [negb andb].
    unfold subscript. rewrite Hlh. simpl. split; [| reflexivity].
    unfold heartbeat_at. rewrite get_set_last_heartbeat, file_in_set_last_heartbeat.
    simpl. auto.
  - simpl in Hw. simpl. unfold bind, get. rewrite Hinit, Hw. simpl. auto.
Qed.

Lemma run_events_quiet cfg d f t0 (evs : list (env * editor_event)) :
  is_ignored_file cfg f = false ->
  Forall (quiet cfg f t0) evs ->
  forall st, heartbeat_at cfg d f t0 st -> emitted (snd (run_events evs st)) = [].
Proof.
  intros Hign Hall. induction Hall as [| x rest Hx _ IH]; intros st Hat.
  - reflexivity.
  - simpl. destruct (deliver_quiet cfg d f t0 st x Hign Hat Hx) as [Hat1 Hem1].
    destruct (deliver st x) as [st1 out1]. simpl in Hat1, Hem1.
    specialize (IH st1 Hat1).
    destruct (run_events rest st1) as [st2 out2]. simpl in IH |- *.
    rewrite emitted_app, Hem1, IH. reflexivity.
Qed.

(** The first open or activation of a file without a record emits one
    heartbeat of duration 0 and records the event time. *)
Lemma deliver_first (d : bool) (f : string) (st : EztrackerState)
    (e : env) (ev : editor_event) :
  initialized st = true ->
  attr_debug st = Some d ->
  is_ignored_file (config st) f = false ->
  last_heartbeat st !! f = None ->
  about f ev ->
  opens ev = true ->
  heartbeat_at (config st) d f (time_time e) (fst (deliver st (e, ev))) /\
  emitted (snd (deliver st (e, ev))) =
    [ mkHeartbeat f (PyStr.str (time_time e)) false 0 (file_language (event_view ev)) ].
Proof.
  intros Hinit Hdbg Hign Hnone Hab Hop.
  assert (Hlh : get_last_heartbeat st f !! "last_heartbeat_at" = Some 0).
  { unfold get_last_heartbeat. rewrite Hnone. vm_compute. reflexivity. }
  assert (Hin : file_in st f = false).
  { unfold file_in. rewrite Hnone. apply bool_decide_eq_false. intros [x Hx]. discriminate. }
  assert (Hfirst : forall v, file_name v = Some f ->
            let r := append_heartbeat e v false st [] in
            heartbeat_at (config st) d f (time_time e) (result_state r) /\
            emitted (result_out r) =
              [ mkHeartbeat f (PyStr.str (time_time e)) false 0 (file_language v) ]).
  { intros v Hv r. subst r.
    rewrite (append_heartbeat_eq e v false st [] d f 0) by assumption.
    assert (Hyes : emits st f (time_time e) 0 false = true).
    { unfold emits. rewrite Hin. simpl. apply orb_true_r. }
    rewrite Hyes. unfold heartbeat_of. rewrite Hin.
    set (hb := mkHeartbeat f (PyStr.str (time_time e)) false 0 (file_language v)).
    destruct (flush_trigger_frame e (time_time e) (recorded st f (time_time e) hb)
                ([] ++ [buffer_append hb])%list) as (delta & Hadd & Hsame & Hem).
    split.
    - eapply heartbeat_at_same_clock; [exact Hsame |].
      unfold heartbeat_at, recorded.
      rewrite get_set_last_heartbeat, file_in_set_last_heartbeat. simpl. auto.
    - unfold adds in Hadd. rewrite Hadd, emitted_app, Hem. reflexivity. }
  unfold deliver. cbn [fst snd].
  destruct ev as [v | v | v | v name]; try discriminate Hop;
    unfold about in Hab; simpl in Hab; simpl; unfold bind, get; rewrite Hinit;
    destruct (Hfirst v Hab) as [H1 H2];
    destruct (append_heartbeat e v false st []); simpl in *; auto.
Qed.

(** C6. A sequence of events on one tracked file that starts, in an
    initialised session in which the file has no record and [state.debug]
    can be read, with an open or an activation, and in which no later event
    is a write and every later event comes within the debounce interval of
    the first event, emits exactly one heartbeat: the one of the first
    event, with duration 0. *)
Theorem one_heartbeat_within_debounce_of_first (d : bool) (f : string)
    (st : EztrackerState) (e0 : env) (ev0 : editor_event)
    (rest : list (env * editor_event)) :
  initialized st = true ->
  attr_debug st = Some d ->
  is_ignored_file (config st) f = false ->
  last_heartbeat st !! f = None ->
  about f ev0 ->
  opens ev0 = true ->
  Forall (quiet (config st) f (time_time e0)) rest ->
  emitted (snd (deliver st (e0, ev0))) =
    [ mkHeartbeat f (PyStr.str (time_time e0)) false 0 (file_language (event_view ev0)) ] /\
  emitted (snd (run_events ((e0, ev0) :: rest) st)) =
    [ mkHeartbeat f (PyStr.str (time_time e0)) false 0 (file_language (event_view ev0)) ].
Proof.
  intros Hinit Hdbg Hign Hnone Hab Hop Hrest.
  destruct (deliver_first d f st e0 ev0 Hinit Hdbg Hign Hnone Hab Hop) as [Hat Hem].
  split; [exact Hem |].
  simpl. destruct (deliver st (e0, ev0)) as [st1 out1]. simpl in Hat, Hem.
  pose proof (run_events_quiet (config st) d f (time_time e0) rest Hign Hrest st1 Hat) as Hq.
  destruct (run_events rest st1) as [st2 out2]. simpl in Hq |- *.
  rewrite emitted_app, Hem, Hq. reflexivity.
Qed.

Lemma one_heartbeat_within_debounce_of_first_witness :
  emitted (snd (run_events
    [ (mkEnv 1700000000 1700000001 true (Completed 0 EmptyString EmptyString),
       on_load (mkView (Some "/src/a.py") "python"));
      (mkEnv 1700000060 1700000061 true (Completed 0 EmptyString EmptyString),
       on_modified (mkView (Some "/src/a.py") "python"));
      (mkEnv 1700000120 1700000121 true (Completed 0 EmptyString EmptyString),
       on_activated (mkView (Some "/src/a.py") "python")) ]
    (session false new_config 1699999990))) =
  [ mkHeartbeat "/src/a.py" "1700000000" false 0 "python" ].
Proof.
  refine (proj2 (one_heartbeat_within_debounce_of_first false "/src/a.py"
            (session false new_config 1699999990)
            (mkEnv 1700000000 1700000001 true (Completed 0 EmptyString EmptyString))
            (on_load (mkView (Some "/src/a.py") "python"))
            [ (mkEnv 1700000060 1700000061 true (Completed 0 EmptyString EmptyString),
               on_modified (mkView (Some "/src/a.py") "python"));
              (mkEnv 1700000120 1700000121 true (Completed 0 EmptyString EmptyString),
               on_activated (mkView (Some "/src/a.py") "python")) ]
            _ _ _ _ _ _ _)).
  - reflexivity.
  - reflexivity.
  - vm_compute; reflexivity.
  - vm_compute; reflexivity.
  - reflexivity.
  - reflexivity.
  - repeat constructor; simpl; discriminate.
Defined.

(** C6, as stated, fails: three events on one file, none a write, with gaps
    of 100 seconds under a debounce interval of 120 seconds, emit two
    heartbeats, because the third event comes 200 seconds after the last
    heartbeat. *)
Lemma gaps_within_debounce_two_heartbeats :
  let v := mkView (Some "/src/a.py") "python" in
  let e t := mkEnv t (t + 1) true (Completed 0 EmptyString EmptyString) in
  let evs := [ (e 1700000000, on_load v);
               (e 1700000100, on_activated v);
               (e 1700000200, on_activated v) ] in
  let st := session false new_config 1699999990 in
  Forall (fun x => about "/src/a.py" (snd x) /\ is_write_event (snd x) = false) evs /\
  gaps_within (heartbeat_frequency (config st) * 60) (map (fun x => time_time (fst x)) evs)
    = true /\
  emitted (snd (run_events evs st)) =
    [ mkHeartbeat "/src/a.py" "1700000000" false 0 "python";
      mkHeartbeat "/src/a.py" "1700000200" false 200 "python" ] /\
  length (emitted (snd (run_events evs st))) <> 1%nat.
Proof.
  cbv zeta. split; [| split; [| split]].
  - repeat constructor.
  - reflexivity.
  - vm_compute. reflexivity.
  - vm_compute. discriminate.
Qed.

(** ** Every path through [append_heartbeat] *)

Lemma tracked_or_untracked (cfg : EztrackerConfig) (v : view) :
  untracked cfg v \/
  exists f, file_name v = Some f /\ is_ignored_file cfg f = false.
Proof.
  unfold untracked, no_file, the_file.
  destruct (file_name v) as [f |]; simpl; [| left; reflexivity].
  destruct (is_ignored_file cfg f) eqn:Hign.
  - left. apply orb_true_r.
  - right. exists f. auto.
Qed.

Lemma append_heartbeat_untracked (e : env) (v : view) (write : bool)
    (st : EztrackerState) (out : list effect) :
  untracked (config st) v -> append_heartbeat e v write st out = Ok tt st out.
Proof.
  unfold untracked. intros H. unfold append_heartbeat, bind, get.
  rewrite H. reflexivity.
Qed.

Lemma append_heartbeat_key_error (e : env) (v : view) (write : bool)
    (st : EztrackerState) (out : list effect) (f : string) :
  file_name v = Some f ->
  is_ignored_file (config st) f = false ->
  get_last_heartbeat st f !! "last_heartbeat_at" = None ->
  append_heartbeat e v write st out = Raise (KeyError "last_heartbeat_at") st out.
Proof.
  intros Hfile Hign Hlh.
  pose proof (not_ignored_truthy _ _ Hign) as Htr.
  unfold append_heartbeat, bind, get, no_file, the_file.
  rewrite Hfile. change (default EmptyString (Some f)) with f.
  rewrite Htr, Hign. cbn [negb orb].
  unfold enough_time_passed, bind, subscript. rewrite Hlh. reflexivity.
Qed.

(** The ways [append_heartbeat] can go: the file is not tracked and nothing
    happens; an exception before anything is written; or the policy step
    and the flush trigger. *)
Lemma append_heartbeat_cases (e : env) (v : view) (write : bool)
    (st : EztrackerState) (out : list effect) :
  append_heartbeat e v write st out = Ok tt st out \/
  (exists ex, append_heartbeat e v write st out = Raise ex st out) \/
  (exists d f lh,
      attr_debug st = Some d /\ file_name v = Some f /\
      is_ignored_file (config st) f = false /\
      get_last_heartbeat st f !! "last_heartbeat_at" = Some lh /\
      append_heartbeat e v write st out =
        if emits st f (time_time e) lh write
        then flush_trigger e (time_time e)
               (recorded st f (time_time e) (heartbeat_of st v f (time_time e) lh write))
               (out ++ [buffer_append (heartbeat_of st v f (time_time e) lh write)])%list
        else flush_trigger e (time_time e) st out).
Proof.
  destruct (tracked_or_untracked (config st) v) as [Hun | (f & Hfile & Hign)].
  - left. apply append_heartbeat_untracked. exact Hun.
  - right.
    destruct (get_last_heartbeat st f !! "last_heartbeat_at") as [lh |] eqn:Hlh.
    + destruct (attr_debug st) as [d |] eqn:Hdbg.
      * right. exists d, f, lh.
        split; [reflexivity |]. split; [assumption |]. split; [assumption |].
        split; [assumption |].
        apply (append_heartbeat_eq e v write st out d f lh); assumption.
      * left. eexists. apply (append_heartbeat_without_attr e v write st out f lh);
          assumption.
    + left. eexists. apply (append_heartbeat_key_error e v write st out f); assumption.
Qed.

(** A way to prove that something holds of the state and the effects after
    [append_heartbeat]: it holds before, survives the recording of a
    heartbeat, and survives a flush trigger. *)
Lemma append_heartbeat_result_ind (P : EztrackerState -> list effect -> Prop)
    (e : env) (v : view) (write : bool) (st : EztrackerState) (out : list effect) :
  P st out ->
  (forall d f lh,
      attr_debug st = Some d ->
      file_name v = Some f ->
      is_ignored_file (config st) f = false ->
      get_last_heartbeat st f !! "last_heartbeat_at" = Some lh ->
      emits st f (time_time e) lh write = true ->
      P (recorded st f (time_time e) (heartbeat_of st v f (time_time e) lh write))
        (out ++ [buffer_append (heartbeat_of st v f (time_time e) lh write)])%list) ->
  (forall s o, P s o ->
               P (result_state (flush_trigger e (time_time e) s o))
                 (result_out (flush_trigger e (time_time e) s o))) ->
  P (result_state (append_heartbeat e v write st out))
    (result_out (append_heartbeat e v write st out)).
Proof.
  intros Hst Hrec Hflush.
  destruct (append_heartbeat_cases e v write st out)
    as [H | [[ex H] | (d & f & lh & Hdbg & Hfile & Hign & Hlh & H)]]; rewrite H.
  - exact Hst.
  - exact Hst.
  - destruct (emits st f (time_time e) lh write) eqn:Hem; apply Hflush; eauto.
Qed.

(** The same for any event. *)
Lemma handle_result_ind (P : EztrackerState -> list effect -> Prop)
    (e : env) (ev : editor_event) (st : EztrackerState) (out : list effect) :
  P st out ->
  (forall d f lh write,
      initialized st = true ->
      attr_debug st = Some d ->
      file_name (event_view ev) = Some f ->
      is_ignored_file (config st) f = false ->
      get_last_heartbeat st f !! "last_heartbeat_at" = Some lh ->
      emits st f (time_time e) lh write = true ->
      P (recorded st f (time_time e)
                  (heartbeat_of st (event_view ev) f (time_time e) lh write))
        (out ++ [buffer_append
                   (heartbeat_of st (event_view ev) f (time_time e) lh write)])%list) ->
  (forall f lh,
      initialized st = true ->
      file_name (event_view ev) = Some f ->
      is_ignored_file (config st) f = false ->
      get_last_heartbeat st f !! "last_heartbeat_at" = Some lh ->
      P (set_last_heartbeat f (time_time e) lh st) out) ->
  (forall s o, P s o ->
               P (result_state (flush_trigger e (time_time e) s o))
                 (result_out (flush_trigger e (time_time e) s o))) ->
  P (result_state (handle e ev st out)) (result_out (handle e ev st out)).
Proof.
  intros Hst Hrec Hmod Hflush.
  destruct ev as [v | v | v | v name]; simpl.
  - unfold bind, get. destruct (initialized st) eqn:Hinit; [| exact Hst].
    apply append_heartbeat_result_ind; eauto.
  - unfold bind, get. destruct (initialized st) eqn:Hinit; [| exact Hst].
    apply append_heartbeat_result_ind; eauto.
  - unfold handle_modified, bind, get. destruct (initialized st) eqn:Hinit; [| exact Hst].
    destruct (tracked_or_untracked (config st) v) as [Hun | (f & Hfile & Hign)].
    + unfold untracked in Hun.
      replace (negb (no_file v) && negb (is_ignored_file (config st) (the_file v)))
        with false by (rewrite <- negb_orb, Hun; reflexivity).
      exact Hst.
    + unfold no_file, the_file. rewrite Hfile.
      change (default EmptyString (Some f)) with f.
      rewrite (not_ignored_truthy _ _ Hign), Hign. cbn [negb andb].
      unfold subscript.
      destruct (get_last_heartbeat st f !! "last_heartbeat_at") as [lh |] eqn:Hlh.
      * simpl. apply (Hmod f lh); auto.
      * exact Hst.
  - unfold bind, get. destruct (initialized st) eqn:Hinit; [| exact Hst].
    destruct (String.eqb name "save"); [| exact Hst]. simpl.
    apply append_heartbeat_result_ind; eauto.
Qed.

(** ** Every path through a flush *)

Lemma run_and_classify_eq (e : env) (cmd : list string)
    (st : EztrackerState) (out : list effect) :
  run_and_classify e cmd st out =
    Ok tt (react (subprocess_run e) st)
       (out ++ run_cli cmd :: map message_dialog (notice_of (subprocess_run e)))%list.
Proof.
  unfold run_and_classify, bind, emit, modify, ret, react, notice_of.
  destruct (subprocess_run e) as [rc so se | | msg].
  - destruct (rc =? EXIT_CODE_API_KEY_ERROR);
      [| destruct (rc =? EXIT_CODE_CONFIG_PARSE_ERROR)];
      rewrite <- ?app_assoc; reflexivity.
  - rewrite <- ?app_assoc; reflexivity.
  - rewrite <- ?app_assoc; reflexivity.
Qed.

(** A flush of a buffer that is not empty: nothing is run and the batch is
    dropped; or building the command line fails; or the tool is run once. *)
Lemma send_heartbeats_cases (e : env) (st : EztrackerState) (out : list effect)
    (hb : heartbeat) (rest : list heartbeat) :
  heartbeat_buffer st = hb :: rest ->
  ((cli_resolvable e = false \/ duration hb = 0) /\
   send_heartbeats e st out = Ok tt (set_heartbeat_buffer [] st) out) \/
  (cli_resolvable e = true /\ duration hb <> 0 /\
   send_heartbeats e st out = Raise ValueError (set_heartbeat_buffer [] st) out) \/
  (cli_resolvable e = true /\ duration hb <> 0 /\
   exists cmd,
     build_cmd (config st) hb rest (set_heartbeat_buffer [] st) out
       = Ok cmd (set_heartbeat_buffer [] st) out /\
     send_heartbeats e st out =
       Ok tt (set_last_sent (time_later e)
                (react (subprocess_run e) (set_heartbeat_buffer [] st)))
          (out ++ run_cli cmd :: map message_dialog (notice_of (subprocess_run e)))%list).
Proof.
  intros Hbuf. unfold send_heartbeats, bind, get. rewrite Hbuf.
  destruct (cli_resolvable e); cbn [negb]; [| left; split; [left |]; reflexivity].
  unfold modify at 1.
  destruct (duration hb =? 0) eqn:Hd.
  - left. split; [right; apply Z.eqb_eq; exact Hd | reflexivity].
  - apply Z.eqb_neq in Hd. right. cbv beta iota.
    destruct (build_cmd_pure (config st) hb rest (set_heartbeat_buffer [] st) out)
      as [[cmd Hcmd] | Hr].
    + right. split; [reflexivity |]. split; [exact Hd |]. exists cmd.
      split; [exact Hcmd |]. unfold modify. cbv beta iota.
      rewrite Hcmd, run_and_classify_eq. reflexivity.
    + left. split; [reflexivity |]. split; [exact Hd |].
      unfold modify. cbv beta iota. rewrite Hr. reflexivity.
Qed.

(** The flush trigger either does nothing or is a flush of a buffer that is
    not empty, after the flush interval. *)
Lemma flush_trigger_cases (e : env) (now : Z) (s : EztrackerState) (o : list effect) :
  flush_trigger e now s o = Ok tt s o \/
  (send_buffer_seconds (config s) < now - last_sent s /\
   exists hb rest, heartbeat_buffer s = hb :: rest /\
                   flush_trigger e now s o = send_heartbeats e s o).
Proof.
  unfold flush_trigger, bind, get.
  destruct (send_buffer_seconds (config s) <? now - last_sent s) eqn:Ht;
    [| left; reflexivity].
  destruct (heartbeat_buffer s) as [| hb rest] eqn:Hbuf; [left; reflexivity |].
  right. split; [apply Z.ltb_lt; exact Ht |]. exists hb, rest. split; reflexivity.
Qed.

(** ** Events on files that are not tracked *)

(** X1. An event on a view without a file name, with an empty file name or
    with an ignored file name does nothing: every handler returns with the
    state and the effects as they were, also in a session without the
    attribute [debug]. *)
Theorem untracked_event_no_op (e : env) (ev : editor_event)
    (st : EztrackerState) (out : list effect) :
  untracked (config st) (event_view ev) ->
  handle e ev st out = Ok tt st out.
Proof.
  intros Hun. destruct ev as [v | v | v | v name]; simpl in *.
  - unfold bind, get. destruct (initialized st); [| reflexivity].
    apply append_heartbeat_untracked. exact Hun.
  - unfold bind, get. destruct (initialized st); [| reflexivity].
    apply append_heartbeat_untracked. exact Hun.
  - unfold handle_modified, bind, get. destruct (initialized st); [| reflexivity].
    unfold untracked in Hun.
    replace (negb (no_file v) && negb (is_ignored_file (config st) (the_file v)))
      with false by (rewrite <- negb_orb, Hun; reflexivity).
    reflexivity.
  - unfold bind, get. destruct (initialized st && String.eqb name "save"); [| reflexivity].
    apply append_heartbeat_untracked. exact Hun.
Qed.

Lemma untracked_event_no_op_witness :
  handle (mkEnv 1700000000 1700000001 true (Completed 0 EmptyString EmptyString))
         (on_text_command (mkView (Some "/repo/.git/COMMIT_EDITMSG") "text") "save")
         (set_initialized true (new_state 1699999000)) []
  = Ok tt (set_initialized true (new_state 1699999000)) [].
Proof.
  apply untracked_event_no_op. vm_compute. reflexivity.
Defined.

(** ** What events keep *)

Lemma flush_trigger_same_clock (e : env) (now : Z) (s : EztrackerState)
    (o : list effect) :
  same_clock s (result_state (flush_trigger e now s o)).
Proof.
  destruct (flush_trigger_frame e now s o) as (delta & _ & H & _). exact H.
Qed.

(** X2. No event changes the configuration or the attribute [debug] of the
    state object: after any sequence of events both are what they were. *)
Theorem events_keep_settings (evs : list (env * editor_event)) (st : EztrackerState) :
  config (fst (run_events evs st)) = config st /\
  attr_debug (fst (run_events evs st)) = attr_debug st.
Proof.
  revert st. induction evs as [| [e ev] rest IH]; intros st; [split; reflexivity |].
  simpl.
  assert (H1 : same_settings st (fst (deliver st (e, ev)))).
  { unfold deliver. cbn [fst snd].
    assert (H : same_settings st (result_state (handle e ev st []))).
    { apply (handle_result_ind (fun s _ => same_settings st s)).
      - split; reflexivity.
      - intros. split; reflexivity.
      - intros. split; reflexivity.
      - intros s o [Hc Ha].
        destruct (flush_trigger_same_clock e (time_time e) s o) as [[Hc' Ha'] _].
        split; congruence. }
    destruct (handle e ev st []); exact H. }
  destruct (deliver st (e, ev)) as [st1 out1]. simpl in H1.
  specialize (IH st1). destruct (run_events rest st1) as [st2 out2]. simpl in *.
  destruct H1 as [Hc Ha], IH as [Hc2 Ha2]. split; congruence.
Qed.

(** X3. The activity clock only grows: a file that has a record keeps one
    through any sequence of events. *)
Theorem clock_records_are_kept (evs : list (env * editor_event)) (st : EztrackerState) :
  dom (last_heartbeat st) ⊆ dom (last_heartbeat (fst (run_events evs st))).
Proof.
  revert st. induction evs as [| [e ev] rest IH]; intros st; [reflexivity |].
  simpl.
  assert (H1 : dom (last_heartbeat st) ⊆ dom (last_heartbeat (fst (deliver st (e, ev))))).
  { unfold deliver. cbn [fst snd].
    assert (H : dom (last_heartbeat st)
                ⊆ dom (last_heartbeat (result_state (handle e ev st [])))).
    { apply (handle_result_ind
               (fun s _ => dom (last_heartbeat st) ⊆ dom (last_heartbeat s))).
      - reflexivity.
      - intros. unfold recorded, set_last_heartbeat. simpl.
        rewrite dom_insert_L. set_solver.
      - intros. unfold set_last_heartbeat. simpl. rewrite dom_insert_L. set_solver.
      - intros s o Hs.
        destruct (flush_trigger_same_clock e (time_time e) s o) as [_ Hm].
        rewrite Hm. exact Hs. }
    destruct (handle e ev st []); exact H. }
  destruct (deliver st (e, ev)) as [st1 out1]. simpl in H1.
  specialize (IH st1). destruct (run_events rest st1) as [st2 out2]. simpl in *.
  set_solver.
Qed.

(** X4. An event about one file leaves the clock record of every other file
    as it was, also when the event triggers a flush. *)
Theorem event_keeps_other_records (f : string) (e : env) (ev : editor_event)
    (st : EztrackerState) :
  file_name (event_view ev) <> Some f ->
  last_heartbeat (fst (deliver st (e, ev))) !! f = last_heartbeat st !! f.
Proof.
  intros Hother. unfold deliver. cbn [fst snd].
  assert (H : last_heartbeat (result_state (handle e ev st [])) !! f
              = last_heartbeat st !! f).
  { apply (handle_result_ind
             (fun s _ => last_heartbeat s !! f = last_heartbeat st !! f)).
    - reflexivity.
    - intros d g lh write _ _ Hg _ _ _. unfold recorded, set_last_heartbeat. simpl.
      apply lookup_insert_ne. congruence.
    - intros g lh _ Hg _ _. unfold set_last_heartbeat. simpl.
      apply lookup_insert_ne. congruence.
    - intros s o Hs.
      destruct (flush_trigger_same_clock e (time_time e) s o) as [_ Hm].
      rewrite Hm. exact Hs. }
  destruct (handle e ev st []); exact H.
Qed.

Lemma event_keeps_other_records_witness :
  last_heartbeat
    (fst (deliver (session false new_config 1000)
            (mkEnv 1040 1041 true (Completed 0 EmptyString EmptyString),
             on_load (mkView (Some "/src/a.py") "python")))) !! "/src/b.py"
  = last_heartbeat (session false new_config 1000) !! "/src/b.py".
Proof.
  apply event_keeps_other_records. simpl. discriminate.
Defined.

(** ** Well-formed states and the exceptions of the event path *)

Lemma well_formed_new_state (t0 : Z) : well_formed (new_state t0).
Proof.
  split; [constructor |]. intros f rec H. simpl in H.
  rewrite lookup_empty in H. discriminate.
Qed.

Lemma well_formed_session (b : bool) (cfg : EztrackerConfig) (t0 : Z) :
  well_formed (session b cfg t0).
Proof.
  split; [constructor |]. intros f rec H. simpl in H.
  rewrite lookup_empty in H. discriminate.
Qed.

Lemma well_formed_set_last_heartbeat (f : string) (a h : Z) (st : EztrackerState) :
  well_formed st -> well_formed (set_last_heartbeat f a h st).
Proof.
  intros [Hbuf Hrec]. split; [exact Hbuf |].
  intros g rec. unfold set_last_heartbeat. simpl.
  destruct (decide (f = g)) as [-> | Hne].
  - rewrite lookup_insert_eq. intros [= <-].
    rewrite lookup_insert_ne by discriminate. rewrite lookup_insert_eq. eauto.
  - rewrite lookup_insert_ne by exact Hne. apply Hrec.
Qed.

Lemma send_heartbeats_drains (e : env) (st : EztrackerState) (out : list effect) :
  heartbeat_buffer (result_state (send_heartbeats e st out)) = [].
Proof.
  destruct (heartbeat_buffer st) as [| hb rest] eqn:Hbuf.
  - unfold send_heartbeats, bind, get. rewrite Hbuf. simpl. exact Hbuf.
  - destruct (send_heartbeats_cases e st out hb rest Hbuf)
      as [[_ H] | [(_ & _ & H) | (_ & _ & cmd & _ & H)]]; rewrite H; simpl;
      try reflexivity.
    unfold react. destruct (subprocess_run e) as [rc so se | | msg]; try reflexivity.
    destruct (rc =? EXIT_CODE_API_KEY_ERROR); reflexivity.
Qed.

Lemma well_formed_flush_trigger (e : env) (now : Z) (s : EztrackerState)
    (o : list effect) :
  well_formed s -> well_formed (result_state (flush_trigger e now s o)).
Proof.
  intros [Hbuf Hrec].
  destruct (flush_trigger_cases e now s o) as [H | (_ & hb & rest & _ & H)].
  - rewrite H. split; assumption.
  - destruct (flush_trigger_same_clock e now s o) as [_ Hm].
    rewrite H in *. split.
    + rewrite send_heartbeats_drains. constructor.
    + rewrite Hm. exact Hrec.
Qed.

Lemma well_formed_handle (e : env) (ev : editor_event) (st : EztrackerState)
    (out : list effect) :
  well_formed st -> well_formed (result_state (handle e ev st out)).
Proof.
  intros Hwf.
  apply (handle_result_ind (fun s _ => well_formed s)).
  - exact Hwf.
  - intros. unfold recorded. apply well_formed_set_last_heartbeat.
    destruct Hwf as [Hbuf Hrec]. split; [| exact Hrec]. simpl.
    apply Forall_app. split; [exact Hbuf |].
    constructor; [| constructor]. exists (time_time e). reflexivity.
  - intros. apply well_formed_set_last_heartbeat. exact Hwf.
  - intros s o. apply well_formed_flush_trigger.
Qed.

(** X5. Well-formedness is an invariant of the event loop: when every clock
    record has a last heartbeat time and every buffered heartbeat carries a
    time written by [str], the same holds after any sequence of events. *)
Theorem events_keep_well_formed (evs : list (env * editor_event))
    (st : EztrackerState) :
  well_formed st -> well_formed (fst (run_events evs st)).
Proof.
  revert st. induction evs as [| [e ev] rest IH]; intros st Hwf; [exact Hwf |].
  simpl.
  assert (H1 : well_formed (fst (deliver st (e, ev)))).
  { unfold deliver. cbn [fst snd].
    pose proof (well_formed_handle e ev st [] Hwf) as H.
    destruct (handle e ev st []); exact H. }
  destruct (deliver st (e, ev)) as [st1 out1]. simpl in H1.
  specialize (IH st1 H1). destruct (run_events rest st1) as [st2 out2]. exact IH.
Qed.

Lemma events_keep_well_formed_witness :
  well_formed
    (fst (run_events
            [ (mkEnv 1010 1011 true (Completed 0 EmptyString EmptyString),
               on_modified (mkView (Some "/src/a.py") "python"));
              (mkEnv 1050 1051 true (Completed 0 EmptyString EmptyString),
               on_text_command (mkView (Some "/src/a.py") "python") "save") ]
            (session false new_config 1000))).
Proof.
  apply events_keep_well_formed. apply well_formed_session.
Defined.

Lemma well_formed_last_heartbeat_at (st : EztrackerState) (f : string) :
  well_formed st -> is_Some (get_last_heartbeat st f !! "last_heartbeat_at").
Proof.
  intros [_ Hrec]. unfold get_last_heartbeat.
  destruct (last_heartbeat st !! f) as [rec |] eqn:Hf; simpl.
  - apply (Hrec f rec Hf).
  - exists 0. vm_compute. reflexivity.
Qed.

(** X6. In a well-formed state a handler either returns or raises
    [AttributeError] for [state.debug] with the state and the effects
    untouched, and it raises only when the attribute is missing: no
    [KeyError] and no [ValueError] leaves a handler. *)
Theorem handler_raises_only_attribute_error (e : env) (ev : editor_event)
    (st : EztrackerState) (out : list effect) :
  well_formed st ->
  returns (handle e ev st out) \/
  (attr_debug st = None /\
   handle e ev st out = Raise (AttributeError "debug") st out).
Proof.
  intros Hwf.
  assert (Happ : forall v w,
            returns (append_heartbeat e v w st out) \/
            (attr_debug st = None /\
             append_heartbeat e v w st out = Raise (AttributeError "debug") st out)).
  { intros v w.
    destruct (tracked_or_untracked (config st) v) as [Hun | (f & Hfile & Hign)].
    - left. rewrite append_heartbeat_untracked by assumption. exact I.
    - destruct (well_formed_last_heartbeat_at st f Hwf) as [lh Hlh].
      destruct (attr_debug st) as [d |] eqn:Hdbg.
      + left. apply (append_heartbeat_returns e v w st out d f lh); try assumption.
        apply Hwf.
      + right. split; [reflexivity |].
        apply (append_heartbeat_without_attr e v w st out f lh); assumption. }
  destruct ev as [v | v | v | v name]; simpl.
  - unfold bind, get. destruct (initialized st); [apply Happ | left; exact I].
  - unfold bind, get. destruct (initialized st); [apply Happ | left; exact I].
  - left. unfold handle_modified, bind, get. destruct (initialized st); [| exact I].
    destruct (negb (no_file v) && negb (is_ignored_file (config st) (the_file v)));
      [| exact I].
    destruct (well_formed_last_heartbeat_at st (the_file v) Hwf) as [lh Hlh].
    unfold subscript. rewrite Hlh. exact I.
  - unfold bind, get.
    destruct (initialized st && String.eqb name "save"); [apply Happ | left; exact I].
Qed.

Lemma handler_raises_only_attribute_error_witness :
  returns (handle (mkEnv 1010 1011 true (Completed 0 EmptyString EmptyString))
                  (on_load (mkView (Some "/src/a.py") "python"))
                  (set_initialized true (new_state 1000)) []) \/
  (attr_debug (set_initialized true (new_state 1000)) = None /\
   handle (mkEnv 1010 1011 true (Completed 0 EmptyString EmptyString))
          (on_load (mkView (Some "/src/a.py") "python"))
          (set_initialized true (new_state 1000)) []
   = Raise (AttributeError "debug") (set_initialized true (new_state 1000)) []).
Proof.
  apply handler_raises_only_attribute_error.
  split; [constructor |]. intros f rec H. simpl in H.
  rewrite lookup_empty in H. discriminate.
Defined.

(** ** What one event emits *)

Lemma deliver_emitted (e : env) (ev : editor_event) (st : EztrackerState) :
  emitted (snd (deliver st (e, ev))) = emitted (result_out (handle e ev st [])) /\
  fst (deliver st (e, ev)) = result_state (handle e ev st []) /\
  snd (deliver st (e, ev)) = result_out (handle e ev st []).
Proof.
  unfold deliver. cbn [fst snd]. destruct (handle e ev st []); auto.
Qed.

(** X7. A save of a tracked file in an initialised session where
    [state.debug] can be read always emits exactly one heartbeat, whatever
    the time since the last one: a write heartbeat whose duration is the
    time since the recorded last heartbeat when the file has a record, and
    0 when it has none. *)
Theorem save_always_emits (e : env) (v : view) (st : EztrackerState)
    (d : bool) (f : string) (lh : Z) :
  initialized st = true ->
  attr_debug st = Some d ->
  file_name v = Some f ->
  is_ignored_file (config st) f = false ->
  get_last_heartbeat st f !! "last_heartbeat_at" = Some lh ->
  emitted (snd (deliver st (e, on_text_command v "save"))) =
    [ mkHeartbeat f (PyStr.str (time_time e)) true
                  (if file_in st f then time_time e - lh else 0)
                  (file_language v) ].
Proof.
  intros Hinit Hdbg Hfile Hign Hlh.
  destruct (deliver_emitted e (on_text_command v "save") st) as [-> _].
  simpl. unfold bind, get. rewrite Hinit. simpl.
  rewrite (append_heartbeat_emitted e v true st d f lh) by assumption.
  reflexivity.
Qed.

Lemma save_always_emits_witness :
  emitted (snd (deliver
                  (recorded (session false new_config 900) "/src/a.py" 1000
                            (mkHeartbeat "/src/a.py" "1000" false 0 "python"))
                  (mkEnv 1005 1006 true (Completed 0 EmptyString EmptyString),
                   on_text_command (mkView (Some "/src/a.py") "python") "save")))
  = [ mkHeartbeat "/src/a.py" "1005" true 5 "python" ].
Proof.
  apply (save_always_emits
           (mkEnv 1005 1006 true (Completed 0 EmptyString EmptyString))
           (mkView (Some "/src/a.py") "python")
           (recorded (session false new_config 900) "/src/a.py" 1000
                     (mkHeartbeat "/src/a.py" "1000" false 0 "python"))
           false "/src/a.py" 1000).
  - reflexivity.
  - reflexivity.
  - reflexivity.
  - vm_compute; reflexivity.
  - vm_compute; reflexivity.
Defined.



(** X9. An event emits at most one heartbeat, and the buffer after it is
    either empty (a flush took everything) or the buffer before it followed
    by what the event emitted: arrival order is kept. *)
Theorem event_appends_in_order (e : env) (ev : editor_event) (st : EztrackerState) :
  (length (emitted (snd (deliver st (e, ev)))) <= 1)%nat /\
  (heartbeat_buffer (fst (deliver st (e, ev))) = [] \/
   heartbeat_buffer (fst (deliver st (e, ev))) =
     (heartbeat_buffer st ++ emitted (snd (deliver st (e, ev))))%list).
Proof.
  destruct (deliver_emitted e ev st) as (_ & -> & ->).
  apply (handle_result_ind
           (fun s o => (length (emitted o) <= 1)%nat /\
                       (heartbeat_buffer s = [] \/
                        heartbeat_buffer s = (heartbeat_buffer st ++ emitted o)%list))).
  - simpl. split; [lia | right; rewrite app_nil_r; reflexivity].
  - intros. simpl. split; [lia | right; reflexivity].
  - intros. simpl. split; [lia | right; rewrite app_nil_r; reflexivity].
  - intros s o [Hlen Hbuf].
    destruct (flush_trigger_cases e (time_time e) s o) as [H | (_ & hb & rest & _ & H)].
    + rewrite H. simpl. auto.
    + destruct (flush_trigger_frame e (time_time e) s o) as (delta & Hadd & _ & Hem).
      unfold adds in Hadd. rewrite Hadd, emitted_app, Hem, app_nil_r.
      split; [exact Hlen |]. left. rewrite H. apply send_heartbeats_drains.
Qed.

(** ** What a session without the attribute [debug] does *)

Lemma handle_without_attribute (e : env) (ev : editor_event)
    (st : EztrackerState) (out : list effect) :
  attr_debug st = None ->
  result_out (handle e ev st out) = out /\
  attr_debug (result_state (handle e ev st out)) = None /\
  heartbeat_buffer (result_state (handle e ev st out)) = heartbeat_buffer st /\
  last_sent (result_state (handle e ev st out)) = last_sent st /\
  initialized (result_state (handle e ev st out)) = initialized st.
Proof.
  intros Hdbg.
  assert (Happ : forall v w,
            result_out (append_heartbeat e v w st out) = out /\
            result_state (append_heartbeat e v w st out) = st).
  { intros v w.
    destruct (append_heartbeat_cases e v w st out)
      as [H | [[ex H] | (d & f & lh & Hd & _)]]; [rewrite H .. |]; simpl; auto.
    congruence. }
  destruct ev as [v | v | v | v name]; simpl.
  - unfold bind, get. destruct (initialized st) eqn:Hinit; simpl; auto.
    destruct (Happ v false) as [-> ->]. auto.
  - unfold bind, get. destruct (initialized st) eqn:Hinit; simpl; auto.
    destruct (Happ v false) as [-> ->]. auto.
  - unfold handle_modified, bind, get. destruct (initialized st) eqn:Hinit; simpl; auto.
    destruct (negb (no_file v) && negb (is_ignored_file (config st) (the_file v)));
      simpl; auto.
    unfold subscript.
    destruct (get_last_heartbeat st (the_file v) !! "last_heartbeat_at"); simpl; auto.
  - unfold bind, get.
    destruct (initialized st && String.eqb name "save") eqn:Hc; simpl; auto.
    destruct (Happ v true) as [-> ->]. auto.
Qed.

(** X10. In a session whose state object has no attribute [debug], as the
    plugin builds it, no sequence of events has any effect: no heartbeat is
    appended, the delivery tool is never run, no dialog is shown, and the
    buffer, the time of the last flush and the initialised flag stay as they
    were. *)
Theorem nothing_is_sent_without_attribute (evs : list (env * editor_event))
    (st : EztrackerState) :
  attr_debug st = None ->
  snd (run_events evs st) = [] /\
  heartbeat_buffer (fst (run_events evs st)) = heartbeat_buffer st /\
  last_sent (fst (run_events evs st)) = last_sent st /\
  initialized (fst (run_events evs st)) = initialized st.
Proof.
  revert st. induction evs as [| [e ev] tl IH]; intros st Hdbg; [auto |].
  simpl.
  destruct (handle_without_attribute e ev st [] Hdbg) as (Ho & Ha & Hb & Hl & Hi).
  destruct (deliver_emitted e ev st) as (_ & Hs & Hout).
  destruct (deliver st (e, ev)) as [st1 out1]. simpl in Hs, Hout. subst st1 out1.
  specialize (IH _ Ha). destruct IH as (IHo & IHb & IHl & IHi).
  destruct (run_events tl (result_state (handle e ev st []))) as [st2 out2].
  simpl in *. rewrite Ho, IHo. repeat split; congruence.
Qed.

Lemma nothing_is_sent_without_attribute_witness :
  snd (run_events
         [ (mkEnv 1010 1011 true (Completed 0 EmptyString EmptyString),
            on_load (mkView (Some "/src/a.py") "python"));
           (mkEnv 1050 1051 true (Completed 0 EmptyString EmptyString),
            on_text_command (mkView (Some "/src/a.py") "python") "save") ]
         (set_initialized true (new_state 1000))) = [].
Proof.
  apply (nothing_is_sent_without_attribute
           [ (mkEnv 1010 1011 true (Completed 0 EmptyString EmptyString),
              on_load (mkView (Some "/src/a.py") "python"));
             (mkEnv 1050 1051 true (Completed 0 EmptyString EmptyString),
              on_text_command (mkView (Some "/src/a.py") "python") "save") ]
           (set_initialized true (new_state 1000))).
  reflexivity.
Defined.

(** ** What a flush does *)

(** X11. Whatever the buffer holds and whatever happens to the delivery
    tool, the buffer is empty after [send_heartbeats], the tool was run at
    most once, at most one dialog was shown, and no heartbeat was put back:
    a batch is never retried. *)
Theorem flush_always_drains (e : env) (st : EztrackerState) :
  heartbeat_buffer (result_state (send_heartbeats e st [])) = [] /\
  (length (invocations (result_out (send_heartbeats e st []))) <= 1)%nat /\
  (length (notices (result_out (send_heartbeats e st []))) <= 1)%nat /\
  emitted (result_out (send_heartbeats e st [])) = [].
Proof.
  split; [apply send_heartbeats_drains |].
  destruct (heartbeat_buffer st) as [| hb rest] eqn:Hbuf.
  - unfold send_heartbeats, bind, get. rewrite Hbuf. simpl. auto.
  - destruct (send_heartbeats_cases e st [] hb rest Hbuf)
      as [[_ H] | [(_ & _ & H) | (_ & _ & cmd & _ & H)]]; rewrite H; simpl; auto.
    unfold notice_of. destruct (subprocess_run e) as [rc so se | | msg]; simpl; auto.
    destruct (rc =? EXIT_CODE_API_KEY_ERROR); simpl; auto.
    destruct (rc =? EXIT_CODE_CONFIG_PARSE_ERROR); simpl; auto.
Qed.

Lemma notices_dialogs (l : list string) : notices (map message_dialog l) = l.
Proof. induction l as [| x l IH]; simpl; [| rewrite IH]; reflexivity. Qed.

Lemma invocations_dialogs (l : list string) : invocations (map message_dialog l) = [].
Proof. induction l as [| x l IH]; simpl; [reflexivity | exact IH]. Qed.

Lemma emitted_dialogs (l : list string) : emitted (map message_dialog l) = [].
Proof. induction l as [| x l IH]; simpl; [reflexivity | exact IH]. Qed.

(** X12. Only the API-key-error exit code ends a session: when the outcome
    of running the tool is anything else (another exit code, a missing
    executable, another fault), an event leaves the initialised flag as it
    was. *)
Theorem only_api_key_error_deinitializes (e : env) (ev : editor_event)
    (st : EztrackerState) :
  api_key_error (subprocess_run e) = false ->
  initialized (fst (deliver st (e, ev))) = initialized st.
Proof.
  intros Hno.
  destruct (deliver_emitted e ev st) as (_ & -> & _).
  apply (handle_result_ind (fun s _ => initialized s = initialized st)).
  - reflexivity.
  - reflexivity.
  - reflexivity.
  - intros s o Hs.
    destruct (flush_trigger_cases e (time_time e) s o) as [H | (_ & hb & rest & Hbuf & H)].
    + rewrite H. exact Hs.
    + rewrite H.
      destruct (send_heartbeats_cases e s o hb rest Hbuf)
        as [[_ H'] | [(_ & _ & H') | (_ & _ & cmd & _ & H')]]; rewrite H'; simpl;
        try exact Hs.
      unfold react, api_key_error in *.
      destruct (subprocess_run e) as [rc so se | | msg]; try exact Hs.
      rewrite Hno. exact Hs.
Qed.

Lemma only_api_key_error_deinitializes_witness :
  initialized
    (fst (deliver
            (mkState true new_config ∅
               [ mkHeartbeat "/src/a.py" "1000" true 50 "python" ] 900 (Some false))
            (mkEnv 1010 1012 true (Completed 103 EmptyString "bad config"),
             on_activated (mkView (Some "/src/b.py") "python"))))
  = true.
Proof.
  apply (only_api_key_error_deinitializes
           (mkEnv 1010 1012 true (Completed 103 EmptyString "bad config"))
           (on_activated (mkView (Some "/src/b.py") "python"))
           (mkState true new_config ∅
              [ mkHeartbeat "/src/a.py" "1000" true 50 "python" ] 900 (Some false))).
  reflexivity.
Defined.

(** X13. When the tool exits with a code that is neither the API-key-error
    nor the config-parse-error code, the event shows no dialog: success and
    unclassified failures are silent. *)
Theorem unclassified_exit_is_silent (e : env) (ev : editor_event)
    (st : EztrackerState) (rc : Z) (so se : string) :
  subprocess_run e = Completed rc so se ->
  rc <> EXIT_CODE_API_KEY_ERROR ->
  rc <> EXIT_CODE_CONFIG_PARSE_ERROR ->
  notices (snd (deliver st (e, ev))) = [].
Proof.
  intros Hrun H104 H103.
  destruct (deliver_emitted e ev st) as (_ & _ & ->).
  apply (handle_result_ind (fun _ o => notices o = [])).
  - reflexivity.
  - reflexivity.
  - reflexivity.
  - intros s o Ho.
    destruct (flush_trigger_cases e (time_time e) s o) as [H | (_ & hb & rest & Hbuf & H)].
    + rewrite H. exact Ho.
    + rewrite H.
      destruct (send_heartbeats_cases e s o hb rest Hbuf)
        as [[_ H'] | [(_ & _ & H') | (_ & _ & cmd & _ & H')]]; rewrite H'; simpl;
        try exact Ho.
      rewrite notices_app, Ho. simpl. rewrite notices_dialogs, Hrun. simpl.
      apply Z.eqb_neq in H104, H103. rewrite H104, H103. reflexivity.
Qed.

Lemma unclassified_exit_is_silent_witness :
  notices
    (snd (deliver
            (mkState true new_config ∅
               [ mkHeartbeat "/src/a.py" "1000" true 50 "python" ] 900 (Some false))
            (mkEnv 1010 1012 true (Completed 1 EmptyString "network down"),
             on_activated (mkView (Some "/src/b.py") "python"))))
  = [].
Proof.
  apply (unclassified_exit_is_silent
           (mkEnv 1010 1012 true (Completed 1 EmptyString "network down"))
           (on_activated (mkView (Some "/src/b.py") "python"))
           (mkState true new_config ∅
              [ mkHeartbeat "/src/a.py" "1000" true 50 "python" ] 900 (Some false))
           1 EmptyString "network down").
  - reflexivity.
  - discriminate.
  - discriminate.
Defined.

(** X14. When the delivery tool cannot be found, an event runs nothing and
    shows nothing, and the time of the last flush stays as it was: the
    buffered heartbeats are dropped without a notice. *)
Theorem missing_tool_is_silent (e : env) (ev : editor_event) (st : EztrackerState) :
  cli_resolvable e = false ->
  invocations (snd (deliver st (e, ev))) = [] /\
  notices (snd (deliver st (e, ev))) = [] /\
  last_sent (fst (deliver st (e, ev))) = last_sent st.
Proof.
  intros Hres.
  destruct (deliver_emitted e ev st) as (_ & -> & ->).
  apply (handle_result_ind
           (fun s o => invocations o = [] /\ notices o = [] /\ last_sent s = last_sent st)).
  - auto.
  - intros. rewrite invocations_app, notices_app. simpl. auto.
  - intros. simpl. auto.
  - intros s o (Hi & Hn & Hl).
    destruct (flush_trigger_cases e (time_time e) s o) as [H | (_ & hb & rest & Hbuf & H)].
    + rewrite H. auto.
    + rewrite H.
      destruct (send_heartbeats_cases e s o hb rest Hbuf)
        as [[_ H'] | [(Hr & _) | (Hr & _)]]; [rewrite H'; simpl; auto | congruence ..].
Qed.

Lemma missing_tool_is_silent_witness :
  invocations
    (snd (deliver
            (mkState true new_config ∅
               [ mkHeartbeat "/src/a.py" "1000" true 50 "python";
                 mkHeartbeat "/src/a.py" "1005" true 5 "python";
                 mkHeartbeat "/src/a.py" "1009" true 4 "python" ] 900 (Some false))
            (mkEnv 1010 1012 false FileNotFoundError,
             on_activated (mkView (Some "/src/a.py") "python"))))
  = [].
Proof.
  apply (missing_tool_is_silent
           (mkEnv 1010 1012 false FileNotFoundError)
           (on_activated (mkView (Some "/src/a.py") "python"))
           (mkState true new_config ∅
              [ mkHeartbeat "/src/a.py" "1000" true 50 "python";
                mkHeartbeat "/src/a.py" "1005" true 5 "python";
                mkHeartbeat "/src/a.py" "1009" true 4 "python" ] 900 (Some false))).
  reflexivity.
Defined.

(** X15. An event changes the time of the last flush exactly when it runs
    the delivery tool, and then to the clock reading taken after the run. *)
Theorem last_sent_follows_the_run (e : env) (ev : editor_event) (st : EztrackerState) :
  last_sent (fst (deliver st (e, ev))) =
    match invocations (snd (deliver st (e, ev))) with
    | [] => last_sent st
    | _ :: _ => time_later e
    end.
Proof.
  destruct (deliver_emitted e ev st) as (_ & -> & ->).
  apply (handle_result_ind
           (fun s o => last_sent s = match invocations o with
                                     | [] => last_sent st
                                     | _ :: _ => time_later e
                                     end)).
  - reflexivity.
  - intros. simpl. reflexivity.
  - intros. simpl. reflexivity.
  - intros s o Hs.
    destruct (flush_trigger_cases e (time_time e) s o) as [H | (_ & hb & rest & Hbuf & H)].
    + rewrite H. exact Hs.
    + rewrite H.
      destruct (send_heartbeats_cases e s o hb rest Hbuf)
        as [[_ H'] | [(_ & _ & H') | (_ & _ & cmd & _ & H')]]; rewrite H'; simpl;
        try exact Hs.
      rewrite invocations_app. simpl.
      destruct (invocations o); reflexivity.
Qed.

(** ** The activity clock as a map *)

(** X16. Reading the clock after [set_last_heartbeat]: the file written has
    the two times given, under the keys [last_activity_at] and
    [last_heartbeat_at], and every other file reads as before. *)
Theorem get_after_set_last_heartbeat (f g : string) (a h : Z) (st : EztrackerState) :
  get_last_heartbeat (set_last_heartbeat f a h st) f !! "last_activity_at" = Some a /\
  get_last_heartbeat (set_last_heartbeat f a h st) f !! "last_heartbeat_at" = Some h /\
  get_last_heartbeat (set_last_heartbeat f a h st) g =
    if decide (f = g)
    then get_last_heartbeat (set_last_heartbeat f a h st) f
    else get_last_heartbeat st g.
Proof.
  split; [| split].
  - unfold get_last_heartbeat, set_last_heartbeat. simpl.
    rewrite lookup_insert_eq. simpl. apply lookup_insert_eq.
  - apply get_set_last_heartbeat.
  - destruct (decide (f = g)) as [-> | Hne]; [reflexivity |].
    unfold get_last_heartbeat, set_last_heartbeat. simpl.
    rewrite lookup_insert_ne by exact Hne. reflexivity.
Qed.

(** ** Reading the configuration file *)

Section LoadFacts.

Variable float_value : string -> option Z.

(** What one line does to the configuration does not depend on the
    configuration: the line raises, or it applies one fixed update. *)
Lemma load_line_uniform (line : string) (section : option string) :
  (forall c, load_line float_value line c section = None) \/
  (exists section',
      (forall c, load_line float_value line c section = Some (c, section')) \/
      (exists k v, forall c,
          load_line float_value line c section
            = Some (load_setting float_value k v c, section'))).
Proof.
  unfold load_line.
  destruct (negb (PyStr.truthy (PyLine.strip line)) || is_comment (PyLine.strip line)).
  { right. exists section. left. reflexivity. }
  destruct (is_section_header (PyLine.strip line)).
  { right. eexists. left. reflexivity. }
  destruct section as [s |]; [| left; reflexivity].
  right. exists (Some s).
  destruct (String.eqb s "settings"); [| left; reflexivity].
  destruct (PyLine.split_once "=" (PyLine.strip line)) as [[k v] |];
    [| left; reflexivity].
  right. eexists _, _. reflexivity.
Qed.

Lemma load_setting_fixed (k v : string) (c : EztrackerConfig) :
  fixed_fields (load_setting float_value k v c) = fixed_fields c.
Proof.
  unfold load_setting.
  repeat match goal with
         | |- context [if ?b then _ else _] => destruct b
         | |- context [match float_value ?x with _ => _ end] => destruct (float_value x)
         end; reflexivity.
Qed.

Lemma load_lines_fixed (lines : list string) (c : EztrackerConfig)
    (section : option string) :
  fixed_fields (load_lines float_value lines c section) = fixed_fields c.
Proof.
  revert c section. induction lines as [| line rest IH]; intros c section; simpl.
  - reflexivity.
  - destruct (load_line_uniform line section) as [Hn | (s' & [Hs | (k & v & Hs)])].
    + rewrite Hn. reflexivity.
    + rewrite Hs. apply IH.
    + rewrite Hs, IH. apply load_setting_fixed.
Qed.

(** X17. Whatever the configuration file holds, loading it leaves the path
    of the delivery tool, the flush interval and the ignore patterns as they
    were: the file cannot set them. *)
Theorem load_keeps_tool_interval_patterns (rd : file_read) (c : EztrackerConfig) :
  cli_path (load_fields float_value rd c) = cli_path c /\
  send_buffer_seconds (load_fields float_value rd c) = send_buffer_seconds c /\
  ignore_patterns (load_fields float_value rd c) = ignore_patterns c.
Proof.
  assert (H : fixed_fields (load_fields float_value rd c) = fixed_fields c).
  { destruct rd; simpl; [apply load_lines_fixed | reflexivity ..]. }
  unfold fixed_fields in H. inversion H. auto.
Qed.

(** X18. A file whose first line that is neither blank nor a comment is not
    a section header is discarded as a whole: reading that line raises
    inside [load], and the configuration stays as it was, whatever follows,
    also a later [[settings]] section. *)
Theorem settings_before_header_discard_file (pre : list string) (line : string)
    (rest : list string) (c : EztrackerConfig) :
  forallb skipped pre = true ->
  plain line = true ->
  load_fields float_value (FileLines (pre ++ line :: rest)) c = c.
Proof.
  intros Hpre Hline. simpl.
  induction pre as [| p pre IH]; simpl.
  - unfold plain, skipped in Hline. unfold load_line.
    apply andb_true_iff in Hline as [H1 H2].
    apply negb_true_iff in H1, H2. rewrite H1, H2. reflexivity.
  - simpl in Hpre. apply andb_true_iff in Hpre as [Hp Hpre].
    unfold skipped in Hp. unfold load_line at 1. rewrite Hp. apply IH. exact Hpre.
Qed.

(** The value a field has after the loop is either fixed by the lines or
    the value it had before. *)
Lemma load_lines_field {A} (field : EztrackerConfig -> A)
    (Hset : forall k v,
        (exists x, forall c, field (load_setting float_value k v c) = x) \/
        (forall c, field (load_setting float_value k v c) = field c))
    (lines : list string) (section : option string) :
  (exists x, forall c, field (load_lines float_value lines c section) = x) \/
  (forall c, field (load_lines float_value lines c section) = field c).
Proof.
  revert section. induction lines as [| line rest IH]; intros section; simpl.
  - right. reflexivity.
  - destruct (load_line_uniform line section) as [Hn | (s' & [Hs | (k & v & Hs)])].
    + right. intros c. rewrite Hn. reflexivity.
    + destruct (IH s') as [[x Hx] | Hid].
      * left. exists x. intros c. rewrite Hs. apply Hx.
      * right. intros c. rewrite Hs. apply Hid.
    + destruct (IH s') as [[x Hx] | Hid].
      * left. exists x. intros c. rewrite Hs. apply Hx.
      * destruct (Hset k v) as [[x Hx] | Hk].
        -- left. exists x. intros c. rewrite Hs, Hid. apply Hx.
        -- right. intros c. rewrite Hs, Hid. apply Hk.
Qed.

Lemma load_lines_field_idem {A} (field : EztrackerConfig -> A)
    (Hset : forall k v,
        (exists x, forall c, field (load_setting float_value k v c) = x) \/
        (forall c, field (load_setting float_value k v c) = field c))
    (lines : list string) (section : option string) (c : EztrackerConfig) :
  field (load_lines float_value lines
           (load_lines float_value lines c section) section)
  = field (load_lines float_value lines c section).
Proof.
  destruct (load_lines_field field Hset lines section) as [[x Hx] | Hid].
  - rewrite !Hx. reflexivity.
  - rewrite Hid. reflexivity.
Qed.

Ltac setting_cases :=
  intros k v; unfold load_setting;
  repeat match goal with
         | |- context [if ?b then _ else _] => destruct b
         | |- context [match float_value ?x with _ => _ end] => destruct (float_value x)
         end;
  solve [ right; reflexivity | left; eexists; intros; simpl; reflexivity ].

Lemma config_eq (c1 c2 : EztrackerConfig) :
  api_key c1 = api_key c2 -> server_url c1 = server_url c2 ->
  debug c1 = debug c2 -> heartbeat_frequency c1 = heartbeat_frequency c2 ->
  fixed_fields c1 = fixed_fields c2 -> c1 = c2.
Proof.
  destruct c1, c2. unfold fixed_fields. simpl. intros -> -> -> -> H.
  inversion H. reflexivity.
Qed.

(** X19. Loading is idempotent: loading the same file contents a second
    time, on the configuration the first load left, changes nothing. *)
Theorem load_twice_is_load_once (rd : file_read) (c : EztrackerConfig) :
  load_fields float_value rd (load_fields float_value rd c)
  = load_fields float_value rd c.
Proof.
  destruct rd as [lines | |]; simpl; [| reflexivity ..].
  apply config_eq.
  - apply (load_lines_field_idem api_key). setting_cases.
  - apply (load_lines_field_idem server_url). setting_cases.
  - apply (load_lines_field_idem debug). setting_cases.
  - apply (load_lines_field_idem heartbeat_frequency). setting_cases.
  - rewrite load_lines_fixed. reflexivity.
Qed.

End LoadFacts.

Lemma settings_before_header_discard_file_witness :
  load_fields PyStr.float
    (FileLines (["# eztracker"; EmptyString]
                ++ "api_key = secret" :: ["[settings]"; "api_key = other"]))
    new_config
  = new_config.
Proof.
  apply (settings_before_header_discard_file PyStr.float
           ["# eztracker"; EmptyString] "api_key = secret"
           ["[settings]"; "api_key = other"] new_config).
  - reflexivity.
  - reflexivity.
Defined.

(** ** The debug command and the configuration file *)





(** ** Initialisation *)

Lemma append_heartbeats_untracked (views : list (env * view))
    (st : EztrackerState) (out : list effect) :
  Forall (fun x => untracked (config st) (snd x)) views ->
  append_heartbeats views st out = Ok tt st out.
Proof.
  induction 1 as [| [e v] rest Hv _ IH]; simpl; [reflexivity |].
  unfold bind. simpl in Hv. rewrite append_heartbeat_untracked by exact Hv. exact IH.
Qed.

Lemma load_eq (float_value : string -> option Z) (rd : file_read)
    (st : EztrackerState) (out : list effect) :
  load float_value rd st out =
    if PyStr.truthy (api_key (load_fields float_value rd (config st)))
    then Ok true (set_config (load_fields float_value rd (config st)) st) out
    else Ok false (set_config (load_fields float_value rd (config st)) st)
            (out ++ [message_dialog
                       "[Eztracker] API key not found. Set API_KEY env var or add to ~/.eztracker.cfg"])%list.
Proof.
  unfold load, bind, get, modify, emit, ret.
  destruct (PyStr.truthy (api_key (load_fields float_value rd (config st))));
    reflexivity.
Qed.

(** X21. [on_init] on a session that is not initialised, with views that
    are not tracked (or none): the configuration becomes what the file
    gives, and the session is initialised exactly when the API key is then
    not empty; when it is empty, the only effect is the dialog about the
    missing key. *)
Theorem on_init_needs_api_key (float_value : string -> option Z)
    (rd : file_read) (views : list (env * view)) (st : EztrackerState) :
  initialized st = false ->
  Forall (fun x => untracked (load_fields float_value rd (config st)) (snd x)) views ->
  exists st' out,
    on_init float_value rd views st [] = Ok tt st' out /\
    config st' = load_fields float_value rd (config st) /\
    initialized st' = PyStr.truthy (api_key (config st')) /\
    notices out =
      (if initialized st' then []
       else ["[Eztracker] API key not found. Set API_KEY env var or add to ~/.eztracker.cfg"]) /\
    emitted out = [] /\ invocations out = [].
Proof.
  intros Hinit Hviews.
  unfold on_init, bind, get. rewrite Hinit. cbn [negb]. rewrite load_eq.
  destruct (PyStr.truthy (api_key (load_fields float_value rd (config st)))) eqn:Hkey;
    unfold modify, ret; cbv beta iota;
    rewrite append_heartbeats_untracked by exact Hviews;
    eexists _, _; (split; [reflexivity |]); simpl; rewrite ?Hkey, ?Hinit; auto.
Qed.

Lemma on_init_needs_api_key_witness :
  exists st' out,
    on_init PyStr.float (FileLines ["[settings]"; "api_key = secret"])
            [ (mkEnv 1010 1011 true FileNotFoundError,
               mkView None EmptyString) ] (new_state 1000) []
    = Ok tt st' out /\
    initialized st' = true /\ notices out = [].
Proof.
  destruct (on_init_needs_api_key PyStr.float
              (FileLines ["[settings]"; "api_key = secret"])
              [ (mkEnv 1010 1011 true FileNotFoundError, mkView None EmptyString) ]
              (new_state 1000))
    as (st' & out & Hrun & Hcfg & Hi & Hn & _).
  - reflexivity.
  - constructor; [reflexivity | constructor].
  - exists st', out. split; [exact Hrun |].
    assert (Ht : initialized st' = true) by (rewrite Hi, Hcfg; reflexivity).
    split; [exact Ht |]. rewrite Hn, Ht. reflexivity.
Defined.

Lemma flush_trigger_stays_uninitialized (e : env) (now : Z) (s : EztrackerState)
    (o : list effect) :
  initialized s = false ->
  initialized (result_state (flush_trigger e now s o)) = false.
Proof.
  intros Hs.
  destruct (flush_trigger_cases e now s o) as [H | (_ & hb & rest & Hbuf & H)].
  - rewrite H. exact Hs.
  - rewrite H.
    destruct (send_heartbeats_cases e s o hb rest Hbuf)
      as [[_ H'] | [(_ & _ & H') | (_ & _ & cmd & _ & H')]]; rewrite H'; simpl;
      try exact Hs.
    unfold react. destruct (subprocess_run e) as [rc so se | | msg]; try exact Hs.
    destruct (rc =? EXIT_CODE_API_KEY_ERROR); [reflexivity | exact Hs].
Qed.

Lemma bind_ret_tt (m : M unit) (st : EztrackerState) (out : list effect) :
  result_state ((m ;; ret tt) st out) = result_state (m st out) /\
  result_out ((m ;; ret tt) st out) = result_out (m st out).
Proof.
  unfold bind, ret. destruct (m st out); auto.
Qed.

(** X22. [on_init] runs [append_heartbeat] on the views also when the load
    finds no API key: the session stays not initialised and the dialog is
    shown, and yet, where [state.debug] can be read, a heartbeat of duration
    0 is appended for a tracked view without a record. *)
Theorem on_init_appends_without_api_key (float_value : string -> option Z)
    (rd : file_read) (e : env) (v : view) (st : EztrackerState)
    (d : bool) (f : string) :
  initialized st = false ->
  attr_debug st = Some d ->
  PyStr.truthy (api_key (load_fields float_value rd (config st))) = false ->
  file_name v = Some f ->
  is_ignored_file (load_fields float_value rd (config st)) f = false ->
  last_heartbeat st !! f = None ->
  initialized (result_state (on_init float_value rd [(e, v)] st [])) = false /\
  emitted (result_out (on_init float_value rd [(e, v)] st [])) =
    [ mkHeartbeat f (PyStr.str (time_time e)) false 0 (file_language v) ].
Proof.
  intros Hinit Hdbg Hkey Hfile Hign Hnone.
  set (c := load_fields float_value rd (config st)) in *.
  set (s1 := set_config c st).
  set (out1 := [message_dialog
                  "[Eztracker] API key not found. Set API_KEY env var or add to ~/.eztracker.cfg"]).
  assert (Hrun : on_init float_value rd [(e, v)] st []
                 = (append_heartbeat e v false ;; ret tt) s1 out1).
  { unfold on_init, bind at 1, get. rewrite Hinit. cbn [negb].
    unfold bind at 1. rewrite load_eq. fold c. rewrite Hkey.
    unfold bind at 1. reflexivity. }
  rewrite Hrun. destruct (bind_ret_tt (append_heartbeat e v false) s1 out1) as [-> ->].
  assert (Hlh : get_last_heartbeat s1 f !! "last_heartbeat_at" = Some 0).
  { unfold get_last_heartbeat. simpl. rewrite Hnone. vm_compute. reflexivity. }
  assert (Hin : file_in s1 f = false).
  { unfold file_in. simpl. rewrite Hnone. apply bool_decide_eq_false.
    intros [x Hx]. discriminate. }
  rewrite (append_heartbeat_eq e v false s1 out1 d f 0) by assumption.
  assert (Hyes : emits s1 f (time_time e) 0 false = true).
  { unfold emits. rewrite Hin. simpl. apply orb_true_r. }
  rewrite Hyes. unfold heartbeat_of. rewrite Hin.
  split.
  - apply flush_trigger_stays_uninitialized. exact Hinit.
  - match goal with
    | |- context [flush_trigger e ?now ?s ?o] =>
        destruct (flush_trigger_frame e now s o) as (delta & Hadd & _ & Hem)
    end.
    unfold adds in Hadd. rewrite Hadd, !emitted_app, Hem. reflexivity.
Qed.

Lemma on_init_appends_without_api_key_witness :
  initialized
    (result_state
       (on_init PyStr.float FileNotFound
          [ (mkEnv 1010 1011 true FileNotFoundError,
             mkView (Some "/src/a.py") "python") ]
          (mkState false new_config ∅ [] 1000 (Some false)) [])) = false /\
  emitted
    (result_out
       (on_init PyStr.float FileNotFound
          [ (mkEnv 1010 1011 true FileNotFoundError,
             mkView (Some "/src/a.py") "python") ]
          (mkState false new_config ∅ [] 1000 (Some false)) [])) =
    [ mkHeartbeat "/src/a.py" "1010" false 0 "python" ].
Proof.
  apply (on_init_appends_without_api_key PyStr.float FileNotFound
           (mkEnv 1010 1011 true FileNotFoundError)
           (mkView (Some "/src/a.py") "python")
           (mkState false new_config ∅ [] 1000 (Some false)) false "/src/a.py").
  - reflexivity.
  - reflexivity.
  - reflexivity.
  - reflexivity.
  - vm_compute; reflexivity.
  - reflexivity.
Defined.

(** ** Splitting a scope name into words *)

Lemma split_lstrip (s : string) :
  PyLine.split (PyLine.lstrip_by PyLine.is_space s) = PyLine.split s.
Proof.
  induction s as [| c rest IH]; simpl; [reflexivity |].
  destruct (PyLine.is_space c) eqn:Hc; [exact IH |].
  simpl. rewrite Hc. reflexivity.
Qed.

Lemma rstrip_head (p : ascii -> bool) (s : string) (k : ascii) (ks : string) :
  PyLine.rstrip_by p s = String k ks -> exists r, s = String k r.
Proof.
  destruct s as [| c rest]; simpl; [discriminate |].
  destruct (PyLine.rstrip_by p rest); [destruct (p c) |]; intros [= <- _]; eauto.
Qed.

Lemma rstrip_empty_split (s : string) :
  PyLine.rstrip_by PyLine.is_space s = EmptyString -> PyLine.split s = [].
Proof.
  induction s as [| c rest IH]; simpl; [reflexivity |].
  destruct (PyLine.rstrip_by PyLine.is_space rest); [| discriminate].
  destruct (PyLine.is_space c); [intros _; apply IH; reflexivity | discriminate].
Qed.

Lemma split_cons (c : ascii) (rest : string) :
  PyLine.split (String c rest) =
    if PyLine.is_space c then PyLine.split rest
    else match rest with
         | EmptyString => [String c EmptyString]
         | String c' _ =>
             if PyLine.is_space c' then String c EmptyString :: PyLine.split rest
             else match PyLine.split rest with
                  | tok :: toks => String c tok :: toks
                  | [] => [String c EmptyString]
                  end
         end.
Proof. reflexivity. Qed.

Lemma split_rstrip (s : string) :
  PyLine.split (PyLine.rstrip_by PyLine.is_space s) = PyLine.split s.
Proof.
  induction s as [| c rest IH]; [reflexivity |].
  cbn [PyLine.rstrip_by].
  destruct (PyLine.rstrip_by PyLine.is_space rest) as [| k ks] eqn:Hr.
  - pose proof (rstrip_empty_split rest Hr) as Hrest.
    destruct (PyLine.is_space c) eqn:Hc; simpl; rewrite Hc.
    + symmetry. exact Hrest.
    + rewrite Hrest. destruct rest as [| c' r']; [reflexivity |].
      destruct (PyLine.is_space c'); reflexivity.
  - destruct (rstrip_head _ _ _ _ Hr) as [r' ->].
    rewrite (split_cons c (String k ks)), (split_cons c (String k r')).
    destruct (PyLine.is_space c); [exact IH |].
    destruct (PyLine.is_space k); rewrite IH; reflexivity.
Qed.

Lemma split_strip (s : string) : PyLine.split (PyLine.strip s) = PyLine.split s.
Proof.
  unfold PyLine.strip. rewrite split_rstrip. apply split_lstrip.
Qed.

Lemma strip_truthy (c : ascii) (rest : string) :
  PyLine.is_space c = false -> PyStr.truthy (PyLine.strip (String c rest)) = true.
Proof.
  intros Hc. unfold PyLine.strip. simpl. rewrite Hc. simpl.
  destruct (PyLine.rstrip_by PyLine.is_space rest); [rewrite Hc |]; reflexivity.
Qed.

(** A word followed by nothing or by whitespace is the first word. *)
Lemma split_word (c : ascii) (word tail : string) :
  no_space (String c word) = true ->
  starts_blank tail = true ->
  PyLine.split (String c word +:+ tail) = String c word :: PyLine.split tail.
Proof.
  revert c. induction word as [| c' word IH]; intros c Hw Ht.
  - simpl in Hw. rewrite andb_true_r in Hw. apply negb_true_iff in Hw.
    change (String c EmptyString +:+ tail) with (String c tail).
    rewrite split_cons, Hw.
    destruct tail as [| t tail']; [reflexivity |].
    simpl in Ht. rewrite Ht. reflexivity.
  - change (String c (String c' word) +:+ tail)
      with (String c (String c' word +:+ tail)).
    simpl in Hw. apply andb_true_iff in Hw as [Hc Hw].
    apply negb_true_iff in Hc.
    assert (Hc' : PyLine.is_space c' = false).
    { apply andb_true_iff in Hw as [H _]. apply negb_true_iff in H. exact H. }
    rewrite split_cons, Hc.
    change (String c' word +:+ tail) with (String c' (word +:+ tail)).
    cbv iota. rewrite Hc'.
    change (String c' (word +:+ tail)) with (String c' word +:+ tail).
    rewrite (IH c' Hw Ht). reflexivity.
Qed.

Lemma prefix_empty (s : string) : String.prefix EmptyString s = true.
Proof. destruct s; reflexivity. Qed.

Lemma source_scope_first (lang : string) (rest : list string) :
  source_scope (("source." +:+ lang) :: rest) = Some lang.
Proof.
  unfold source_scope, PyStr.startswith. simpl.
  change (EmptyString +:+ lang) with lang. rewrite prefix_empty. reflexivity.
Qed.

(** X23. A view whose scope name starts with [source.] followed by a
    language name and then ends or goes on after whitespace has that
    language, whatever its file name and extension say; the name may be
    empty, and then the language is empty. *)
Theorem scope_language_wins (splitext_ext : string -> string)
    (lang tail : string) (file : option string) :
  no_space lang = true ->
  starts_blank tail = true ->
  get_file_language splitext_ext (mkSublimeView ("source." +:+ lang +:+ tail) file) = lang.
Proof.
  intros Hlang Htail. unfold get_file_language. cbn [scope_name].
  change ("source." +:+ lang +:+ tail)
    with (String "s" ("ource." +:+ lang) +:+ tail).
  change (String "s" ("ource." +:+ lang) +:+ tail)
    with (String "s" (("ource." +:+ lang) +:+ tail)) at 1.
  rewrite strip_truthy by reflexivity.
  rewrite split_strip, split_word; [| simpl; exact Hlang | exact Htail].
  change (String "s" ("ource." +:+ lang)) with ("source." +:+ lang).
  rewrite source_scope_first. reflexivity.
Qed.

Lemma scope_language_wins_witness :
  get_file_language (fun _ => ".py")
    (mkSublimeView ("source." +:+ "go" +:+ " meta.function.go") (Some "/src/tool.py"))
  = "go".
Proof.
  apply (scope_language_wins (fun _ => ".py") "go" " meta.function.go"
           (Some "/src/tool.py")).
  - reflexivity.
  - reflexivity.
Defined.

(** ** Ignored files *)

Lemma prefix_app (p s : string) : String.prefix p (p +:+ s) = true.
Proof.
  induction p as [| a p IH].
  - apply prefix_empty.
  - change (String a p +:+ s) with (String a (p +:+ s)). simpl.
    destruct (ascii_dec a a) as [_ | Hne]; [exact IH | contradiction].
Qed.

Lemma endswith_app (dir lit : string) : PyStr.endswith (dir +:+ lit) lit = true.
Proof.
  induction dir as [| c dir IH].
  - change (EmptyString +:+ lit) with lit.
    destruct lit as [| x lit]; [reflexivity |].
    cbn [PyStr.endswith]. rewrite String.eqb_refl. reflexivity.
  - change (String c dir +:+ lit) with (String c (dir +:+ lit)).
    cbn [PyStr.endswith]. rewrite IH. apply orb_true_r.
Qed.

Lemma contains_prefix (needle hay : string) :
  String.prefix needle hay = true -> PyStr.contains needle hay = true.
Proof.
  intros H. destruct hay; cbn [PyStr.contains]; rewrite H; reflexivity.
Qed.

Lemma contains_app (needle a b : string) :
  PyStr.contains needle (a +:+ needle +:+ b) = true.
Proof.
  induction a as [| c a IH].
  - change (EmptyString +:+ needle +:+ b) with (needle +:+ b).
    apply contains_prefix, prefix_app.
  - change (String c a +:+ needle +:+ b) with (String c (a +:+ needle +:+ b)).
    cbn [PyStr.contains]. rewrite IH. apply orb_true_r.
Qed.

(** X24. A file name that ends with the literal of one of the configured
    ignore patterns is ignored, whatever directory or text precedes the
    literal. *)
Theorem file_ending_in_pattern_is_ignored (cfg : EztrackerConfig)
    (lit dir : string) :
  In (literal_at_end lit) (ignore_patterns cfg) ->
  is_ignored_file cfg (dir +:+ lit) = true.
Proof.
  intros Hin. unfold is_ignored_file.
  destruct (negb (PyStr.truthy (dir +:+ lit))); [reflexivity |].
  assert (Hex : existsb (fun p => re_search p (dir +:+ lit)) (ignore_patterns cfg) = true).
  { apply existsb_exists. exists (literal_at_end lit). split; [exact Hin |].
    simpl. rewrite endswith_app. reflexivity. }
  rewrite Hex. reflexivity.
Qed.

Lemma file_ending_in_pattern_is_ignored_witness :
  is_ignored_file new_config ("/repo/.git/" +:+ "MERGE_MSG") = true.
Proof.
  apply (file_ending_in_pattern_is_ignored new_config "MERGE_MSG" "/repo/.git/").
  simpl. auto.
Defined.

(** X25. The fixed rules hold under every configuration: the empty name,
    every name that starts with [term:], every name that contains
    [MiniBufExplorer] and the name [--NO NAME--] are ignored. *)
Theorem fixed_names_are_ignored (cfg : EztrackerConfig) (a b : string) :
  is_ignored_file cfg EmptyString = true /\
  is_ignored_file cfg ("term:" +:+ a) = true /\
  is_ignored_file cfg (a +:+ "MiniBufExplorer" +:+ b) = true /\
  is_ignored_file cfg "--NO NAME--" = true.
Proof.
  unfold is_ignored_file. split; [reflexivity |]. split; [| split].
  - destruct (negb (PyStr.truthy ("term:" +:+ a))); [reflexivity |].
    destruct (existsb _ _); [reflexivity |].
    unfold PyStr.startswith. rewrite prefix_app. reflexivity.
  - destruct (negb (PyStr.truthy (a +:+ "MiniBufExplorer" +:+ b))); [reflexivity |].
    destruct (existsb _ _); [reflexivity |].
    rewrite contains_app, orb_true_r. reflexivity.
  - destruct (negb (PyStr.truthy "--NO NAME--")); [reflexivity |].
    destruct (existsb _ _); [reflexivity |].
    apply orb_true_r.
Qed.

(** ** Sections of the configuration file *)

(** X26. Lines under a section with another name than [settings] change
    nothing: as long as no new section header comes, every line is passed
    over. *)
Theorem other_sections_are_ignored (float_value : string -> option Z)
    (section : string) (lines : list string) (c : EztrackerConfig) :
  section <> "settings" ->
  forallb (fun l => negb (is_section_header (PyLine.strip l))) lines = true ->
  load_lines float_value lines c (Some section) = c.
Proof.
  intros Hs Hlines. induction lines as [| l rest IH]; simpl; [reflexivity |].
  simpl in Hlines. apply andb_true_iff in Hlines as [Hl Hrest].
  apply negb_true_iff in Hl. unfold load_line. rewrite Hl.
  apply String.eqb_neq in Hs. rewrite Hs.
  destruct (negb (PyStr.truthy (PyLine.strip l)) || is_comment (PyLine.strip l));
    apply IH; exact Hrest.
Qed.

Lemma other_sections_are_ignored_witness :
  load_lines PyStr.float ["api_key = secret"; "debug = false"] new_config
             (Some "server") = new_config.
Proof.
  apply (other_sections_are_ignored PyStr.float "server"
           ["api_key = secret"; "debug = false"] new_config).
  - discriminate.
  - reflexivity.
Defined.

(** ** The flush interval *)

(** X27. An event that comes within the flush interval of the last flush
    never runs the delivery tool and shows nothing; what it emits stays in
    the buffer, after what was there. *)
Theorem no_flush_within_interval (e : env) (ev : editor_event) (st : EztrackerState) :
  time_time e - last_sent st <= send_buffer_seconds (config st) ->
  snd (deliver st (e, ev)) = map buffer_append (emitted (snd (deliver st (e, ev)))) /\
  heartbeat_buffer (fst (deliver st (e, ev))) =
    (heartbeat_buffer st ++ emitted (snd (deliver st (e, ev))))%list /\
  last_sent (fst (deliver st (e, ev))) = last_sent st.
Proof.
  intros Hearly.
  destruct (deliver_emitted e ev st) as (_ & -> & ->).
  cut (result_out (handle e ev st []) =
         map buffer_append (emitted (result_out (handle e ev st []))) /\
       heartbeat_buffer (result_state (handle e ev st [])) =
         (heartbeat_buffer st ++ emitted (result_out (handle e ev st [])))%list /\
       last_sent (result_state (handle e ev st [])) = last_sent st /\
       config (result_state (handle e ev st [])) = config st).
  { intros (H1 & H2 & H3 & _). auto. }
  apply (handle_result_ind
           (fun s o => o = map buffer_append (emitted o) /\
                       heartbeat_buffer s = (heartbeat_buffer st ++ emitted o)%list /\
                       last_sent s = last_sent st /\ config s = config st)).
  - simpl. rewrite app_nil_r. auto.
  - intros. simpl. auto.
  - intros. simpl. rewrite app_nil_r. auto.
  - intros s o (Ho & Hb & Hl & Hc).
    destruct (flush_trigger_cases e (time_time e) s o) as [H | (Hlate & _)].
    + rewrite H. simpl. auto.
    + rewrite Hl, Hc in Hlate. lia.
Qed.

Lemma no_flush_within_interval_witness :
  heartbeat_buffer
    (fst (deliver
            (mkState true new_config ∅
               [ mkHeartbeat "/src/a.py" "1000" true 50 "python" ] 1000 (Some false))
            (mkEnv 1030 1031 true (Completed 0 EmptyString EmptyString),
             on_load (mkView (Some "/src/b.py") "python"))))
  = ([ mkHeartbeat "/src/a.py" "1000" true 50 "python" ] ++
     emitted
       (snd (deliver
               (mkState true new_config ∅
                  [ mkHeartbeat "/src/a.py" "1000" true 50 "python" ] 1000 (Some false))
               (mkEnv 1030 1031 true (Completed 0 EmptyString EmptyString),
                on_load (mkView (Some "/src/b.py") "python")))))%list.
Proof.
  apply (no_flush_within_interval
           (mkEnv 1030 1031 true (Completed 0 EmptyString EmptyString))
           (on_load (mkView (Some "/src/b.py") "python"))
           (mkState true new_config ∅
              [ mkHeartbeat "/src/a.py" "1000" true 50 "python" ] 1000 (Some false))).
  simpl. lia.
Defined.

(** ** Durations *)

Lemma clock_before_le (t t' : Z) (st : EztrackerState) :
  t <= t' -> clock_before t st -> clock_before t' st.
Proof.
  intros Hle Hc f rec lh Hf Hlh. specialize (Hc f rec lh Hf Hlh). lia.
Qed.

Lemma clock_before_get (t : Z) (st : EztrackerState) (f : string) (lh : Z) :
  0 <= t -> clock_before t st ->
  get_last_heartbeat st f !! "last_heartbeat_at" = Some lh -> 0 <= lh <= t.
Proof.
  intros Ht Hc. unfold get_last_heartbeat.
  destruct (last_heartbeat st !! f) as [rec |] eqn:Hf; simpl.
  - apply (Hc f rec lh Hf).
  - intros H. assert (lh = 0) by (vm_compute in H; congruence). lia.
Qed.

Lemma clock_before_set (t : Z) (f : string) (a h : Z) (st : EztrackerState) :
  0 <= h <= t -> clock_before t st -> clock_before t (set_last_heartbeat f a h st).
Proof.
  intros Hh Hc g rec lh. unfold set_last_heartbeat. simpl.
  destruct (decide (f = g)) as [-> | Hne].
  - rewrite lookup_insert_eq. intros [= <-].
    rewrite lookup_insert_ne by discriminate. rewrite lookup_insert_eq.
    intros [= <-]. exact Hh.
  - rewrite lookup_insert_ne by exact Hne. apply Hc.
Qed.

Lemma deliver_durations (t : Z) (e : env) (ev : editor_event) (st : EztrackerState) :
  0 <= t -> t <= time_time e -> clock_before t st ->
  clock_before (time_time e) (fst (deliver st (e, ev))) /\
  Forall (fun hb => 0 <= duration hb) (emitted (snd (deliver st (e, ev)))).
Proof.
  intros Ht Hle Hc.
  pose proof (clock_before_le t (time_time e) st Hle Hc) as Hc'.
  assert (Hnow : 0 <= time_time e) by lia.
  destruct (deliver_emitted e ev st) as (_ & -> & ->).
  apply (handle_result_ind
           (fun s o => clock_before (time_time e) s /\
                       Forall (fun hb => 0 <= duration hb) (emitted o))).
  - split; [exact Hc' | constructor].
  - intros d f lh write _ _ _ _ Hlh _. split.
    + unfold recorded. apply clock_before_set; [lia |]. exact Hc'.
    + simpl. constructor; [| constructor]. simpl.
      pose proof (clock_before_get _ st f lh Hnow Hc' Hlh).
      destruct (file_in st f); lia.
  - intros f lh _ _ _ Hlh. split; [| constructor].
    apply clock_before_set; [| exact Hc'].
    apply (clock_before_get _ st f lh Hnow Hc' Hlh).
  - intros s o [Hs Ho].
    destruct (flush_trigger_frame e (time_time e) s o) as (delta & Hadd & [_ Hm] & Hem).
    split.
    + intros f rec lh. rewrite Hm. apply Hs.
    + unfold adds in Hadd. rewrite Hadd, emitted_app, Hem, app_nil_r. exact Ho.
Qed.

(** X28. When the clock readings of the events never go back and every
    recorded last heartbeat time lies between 0 and the first reading, no
    emitted heartbeat has a negative duration. *)
Theorem durations_are_not_negative (t : Z) (evs : list (env * editor_event))
    (st : EztrackerState) :
  0 <= t ->
  clock_before t st ->
  nondecreasing_from t evs = true ->
  Forall (fun hb => 0 <= duration hb) (emitted (snd (run_events evs st))).
Proof.
  revert t st. induction evs as [| [e ev] rest IH]; intros t st Ht Hc Hmono.
  - constructor.
  - simpl in Hmono. apply andb_true_iff in Hmono as [Hle Hmono].
    apply Z.leb_le in Hle.
    destruct (deliver_durations t e ev st Ht Hle Hc) as [Hc1 Hd1].
    simpl. destruct (deliver st (e, ev)) as [st1 out1]. simpl in Hc1, Hd1.
    assert (Hnow : 0 <= time_time e) by lia.
    specialize (IH (time_time e) st1 Hnow Hc1 Hmono).
    destruct (run_events rest st1) as [st2 out2]. simpl in IH |- *.
    rewrite emitted_app. apply Forall_app. split; assumption.
Qed.

Lemma durations_are_not_negative_witness :
  Forall (fun hb => 0 <= duration hb)
    (emitted (snd (run_events
       [ (mkEnv 1010 1011 true (Completed 0 EmptyString EmptyString),
          on_modified (mkView (Some "/src/a.py") "python"));
         (mkEnv 1050 1051 true (Completed 0 EmptyString EmptyString),
          on_text_command (mkView (Some "/src/a.py") "python") "save") ]
       (session false new_config 1000)))).
Proof.
  apply (durations_are_not_negative 1000).
  - lia.
  - intros f rec lh H. simpl in H. rewrite lookup_empty in H. discriminate.
  - reflexivity.
Defined.
